(** * naee-server: the session service, the login controller and the
      product-category id validator, embedded from the TypeScript sources.

    Sources embedded here:
    - [src/services/users.services.ts]   (class [UserService])
    - [src/controllers/users.controllers.ts] ([registerController],
      [loginController])
    - [src/middlewares/products.middlewares.ts]
      ([productCategoryIdValidator])

    The MongoDB driver, [jsonwebtoken], [lodash/omit] and
    [express-validator] are libraries the sources call; their documented
    behaviour is written out below as executable functions. *)

From Stdlib Require Import ZArith NArith List String Ascii Bool Lia.
From stdpp Require Import base decidable strings list.
Import ListNotations.

Local Open Scope string_scope.
Local Open Scope Z_scope.
Local Open Scope list_scope.

(** ** Enumerations ([~/constants/enum]) *)

(** Modelled from the spec: [~/constants/enum] is not among the sources; the
    token types are the four the service signs. *)
Inductive TokenType : Type := Access | Refresh | VerifyEmail | ForgotPassword.

(** Modelled from the spec: role is ordinary (customer) or admin. *)
Inductive UserRole : Type := Admin | Customer.

(** Modelled from the spec: verification status is unverified, verified or
    banned. *)
Inductive UserVerifyStatus : Type := Unverified | Verified | Banned.

(** Modelled from the spec: the account status; its values are not listed,
    two are enough to tell a copied status from a default one. *)
Inductive UserStatus : Type := Active | Inactive.

(** The HTTP status codes the sources name. *)
Inductive HttpStatusCode : Type :=
  | BadRequest | Unauthorized | Forbidden | NotFound | UnprocessableEntity.

(** The message constants the sources name ([~/constants/message]); the
    texts are not among the sources, a constant stands for its text. *)
Inductive Message : Type :=
  | PRODUCT_CATEGORY_ID_IS_REQUIRED
  | PRODUCT_CATEGORY_ID_IS_INVALID
  | PRODUCT_CATEGORY_NOT_FOUND
  | REGISTER_SUCCESS
  | LOGIN_SUCCESS.

#[global] Instance TokenType_eq_dec : EqDecision TokenType.
Proof. solve_decision. Defined.
#[global] Instance UserRole_eq_dec : EqDecision UserRole.
Proof. solve_decision. Defined.
#[global] Instance UserVerifyStatus_eq_dec : EqDecision UserVerifyStatus.
Proof. solve_decision. Defined.
#[global] Instance UserStatus_eq_dec : EqDecision UserStatus.
Proof. solve_decision. Defined.

(** ** Failures

    A rejected promise or a thrown exception.  [ErrorWithStatus] is the
    repository's own error class; the others are what the JavaScript
    runtime and the libraries throw. *)
Inductive Error : Type :=
  | ErrorWithStatus (message : Message) (status : HttpStatusCode)
  | TypeError            (* a property read or destructuring of null/undefined *)
  | BSONError            (* [new ObjectId(s)] on a string that is no id *)
  | JsonWebTokenError    (* malformed token, bad signature or bad sign options *)
  | TokenExpiredError    (* [jwt.verify] at or after the [exp] claim *)
  | MongoServerError.    (* E11000 duplicate key on [_id] *)

Inductive Result (A : Type) : Type :=
  | Ok (a : A)
  | Err (e : Error).
Arguments Ok {A} a.
Arguments Err {A} e.

(** ** ObjectId

    A 12-byte value; its string form is 24 hexadecimal digits. *)
Definition ObjectId : Type := N.

Definition hexDigit (c : ascii) : option N :=
  let n := N_of_ascii c in
  if ((48 <=? n) && (n <=? 57))%N then Some (n - 48)%N
  else if ((97 <=? n) && (n <=? 102))%N then Some (n - 87)%N
  else if ((65 <=? n) && (n <=? 70))%N then Some (n - 55)%N
  else None.

Fixpoint parseHex (s : string) (acc : N) : option N :=
  match s with
  | EmptyString => Some acc
  | String c rest =>
      match hexDigit c with
      | Some d => parseHex rest (16 * acc + d)%N
      | None => None
      end
  end.

(** [new ObjectId(s)] for a string [s]: 24 hexadecimal digits, or a
    [BSONError] (the driver whose [findOneAndUpdate] returns the document
    itself, as the service expects, accepts no other string). *)
Definition ObjectId_new (s : string) : Result ObjectId :=
  if Nat.eqb (String.length s) 24 then
    match parseHex s 0%N with
    | Some n => Ok n
    | None => Err BSONError
    end
  else Err BSONError.

(** [ObjectId.isValid(s)]: whether the constructor accepts [s]. *)
Definition ObjectId_isValid (s : string) : bool :=
  match ObjectId_new s with
  | Ok _ => true
  | Err _ => false
  end.

Definition hexChar (d : N) : ascii :=
  if (d <? 10)%N then ascii_of_N (48 + d) else ascii_of_N (87 + d).

Fixpoint toHex (digits : nat) (n : N) (acc : string) : string :=
  match digits with
  | O => acc
  | S k => toHex k (n / 16)%N (String (hexChar (n mod 16)%N) acc)
  end.

(** [oid.toString()]: 24 lower-case hexadecimal digits. *)
Definition ObjectId_toString (o : ObjectId) : string := toHex 24 o "".

(** ** Token codec ([~/utils/jwt], the promise forms of [jsonwebtoken]'s
    [sign] and [verify])

    [~/utils/jwt] is not among the sources.  The spec gives its contract:
    [sign(payload, secret, expiry?)] yields a token string,
    [verify(token, secret)] yields the payload or fails (invalid signature,
    expired, malformed), and signing then verifying with the matching
    secret returns the original claims. *)

(** Modelled from the spec: one key of a token payload, with its value. *)
Inductive Claim : Type :=
  | CUserId (userId : string)
  | CTokenType (tokenType : TokenType)
  | CVerify (v : UserVerifyStatus)
  | CStatus (s : UserStatus)
  | CRole (r : UserRole)
  | CIat (iat : Z)
  | CExp (exp : Z).

(** Modelled from the spec: a token string.  A signed token is determined
    by its JSON payload (the claims in their key order) and the secret it
    was signed with; [Opaque] is a string that is no well-formed token,
    the empty string included. *)
Inductive Token : Type :=
  | JWT (claims : list Claim) (secret : string)
  | Opaque (s : string).

#[global] Instance Claim_eq_dec : EqDecision Claim.
Proof. solve_decision. Defined.
#[global] Instance Token_eq_dec : EqDecision Token.
Proof. solve_decision. Defined.

(** The decoded payload is the claims object; a claim is read by key, and
    a key that is absent reads as [undefined] ([None]). *)
Definition TokenPayload : Type := list Claim.

Fixpoint claim_userId (p : TokenPayload) : option string :=
  match p with
  | [] => None
  | CUserId s :: _ => Some s
  | _ :: rest => claim_userId rest
  end.

Fixpoint claim_tokenType (p : TokenPayload) : option TokenType :=
  match p with
  | [] => None
  | CTokenType t :: _ => Some t
  | _ :: rest => claim_tokenType rest
  end.

Fixpoint claim_verify (p : TokenPayload) : option UserVerifyStatus :=
  match p with
  | [] => None
  | CVerify v :: _ => Some v
  | _ :: rest => claim_verify rest
  end.

Fixpoint claim_status (p : TokenPayload) : option UserStatus :=
  match p with
  | [] => None
  | CStatus s :: _ => Some s
  | _ :: rest => claim_status rest
  end.

Fixpoint claim_role (p : TokenPayload) : option UserRole :=
  match p with
  | [] => None
  | CRole r :: _ => Some r
  | _ :: rest => claim_role rest
  end.

Fixpoint claim_iat (p : TokenPayload) : option Z :=
  match p with
  | [] => None
  | CIat z :: _ => Some z
  | _ :: rest => claim_iat rest
  end.

Fixpoint claim_exp (p : TokenPayload) : option Z :=
  match p with
  | [] => None
  | CExp z :: _ => Some z
  | _ :: rest => claim_exp rest
  end.

(** [jsonwebtoken] works in seconds: [Math.floor(Date.now() / 1000)]. *)
Definition seconds (nowMs : Z) : Z := nowMs / 1000.

(** Modelled from the spec: [sign(payload, secret, expiry?)], as
    [jwt.sign(payload, key, { expiresIn })] does it.  The issued-at claim
    is added after the payload's own keys; with [expiresIn] the expiry
    claim is computed from it and added last; without it an [exp] key of
    the payload is kept as it is.  Giving both is refused. *)
Definition jwt_sign (payload : list Claim) (privateKey : string)
    (expiresIn : option Z) (nowMs : Z) : Result Token :=
  let timestamp :=
    match claim_iat payload with
    | Some t => t
    | None => seconds nowMs
    end in
  let withIat :=
    match claim_iat payload with
    | Some _ => payload
    | None => payload ++ [CIat timestamp]
    end in
  match expiresIn, claim_exp payload with
  | Some _, Some _ => Err JsonWebTokenError
  | Some d, None => Ok (JWT (withIat ++ [CExp (timestamp + d)]) privateKey)
  | None, _ => Ok (JWT withIat privateKey)
  end.

(** Modelled from the spec: [verify(token, secret)], as
    [jwt.verify(token, key)] does it: the signature is checked first, then
    the expiry (a clock at or after [exp] is expired). *)
Definition jwt_verify (t : Token) (secretOrPublicKey : string) (nowMs : Z)
    : Result TokenPayload :=
  match t with
  | Opaque _ => Err JsonWebTokenError
  | JWT claims secret =>
      if bool_decide (secret = secretOrPublicKey) then
        match claim_exp claims with
        | Some e => if e <=? seconds nowMs then Err TokenExpiredError else Ok claims
        | None => Ok claims
        end
      else Err JsonWebTokenError
  end.

(** [jwt.decode]: the claims of a well-formed token, unverified. *)
Definition jwt_decode (t : Token) : option TokenPayload :=
  match t with
  | JWT claims _ => Some claims
  | Opaque _ => None
  end.

(** ** Configuration ([~/constants/config]) *)

(** Modelled from the spec: four secrets and four expiry durations, one pair
    per token type; durations in seconds. *)
Record Config : Type := mkConfig {
  JWT_ACCESS_TOKEN_SECRET : string;
  JWT_REFRESH_TOKEN_SECRET : string;
  JWT_VERIFY_EMAIL_TOKEN_SECRET : string;
  JWT_FORGOT_PASSWORD_TOKEN_SECRET : string;
  JWT_ACCESS_TOKEN_EXPIRED_IN : Z;
  JWT_REFRESH_TOKEN_EXPIRED_IN : Z;
  JWT_VERIFY_EMAIL_TOKEN_EXPIRED_IN : Z;
  JWT_FORGOT_PASSWORD_TOKEN_EXPIRED_IN : Z
}.

(** ** Documents

    A JavaScript object as the list of its own keys, in order, with their
    values: what [omit] and the JSON response are about. *)
#[local] Unset Elimination Schemes.
Inductive JsValue : Type :=
  | VString (s : string)
  | VNumber (z : Z)
  | VDate (ms : Z)
  | VId (o : ObjectId)
  | VToken (t : Token)
  | VVerify (v : UserVerifyStatus)
  | VStatus (s : UserStatus)
  | VRole (r : UserRole)
  | VArray (items : list JsValue)
  | VObject (fields : list (string * JsValue)).
#[local] Set Elimination Schemes.

Definition Doc : Type := list (string * JsValue).

(** [o[key]]: the value of an own key, [None] for [undefined]. *)
Fixpoint field (key : string) (o : Doc) : option JsValue :=
  match o with
  | [] => None
  | (k, v) :: rest => if String.eqb k key then Some v else field key rest
  end.

(** [lodash/omit(o, paths)] for top-level keys: a copy of [o] without the
    keys listed in [paths]. *)
Definition omit (o : Doc) (paths : list string) : Doc :=
  List.filter (fun kv => negb (existsb (String.eqb (fst kv)) paths)) o.

(** ** Schemas *)

(** Modelled from the spec: [~/models/schemas/User.schema] is not among the
    sources.  The fields are the ones the service reads, writes or omits;
    the string fields that hold a token hold [Opaque ""] once cleared. *)
Record User : Type := mkUser {
  _id : ObjectId;
  email : string;
  password : string;
  avatar : string;
  phoneNumber : string;
  verifyEmailToken : Token;
  forgotPasswordToken : Token;
  addresses : list ObjectId;
  status : UserStatus;
  role : UserRole;
  verify : UserVerifyStatus;
  createdAt : Z;
  updatedAt : Z
}.

(** Modelled from the spec: [new User({ _id, email, password,
    verifyEmailToken })].  A user is created unverified, with the ordinary
    role and an active account; the fields not given default to empty and
    both dates to [new Date()], as the constructors of [Brand] and
    [ProductCategory] in the sources do. *)
Definition new_User (id : ObjectId) (email_ password_ : string)
    (verifyEmailToken_ : Token) (date : Z) : User :=
  {| _id := id;
     email := email_;
     password := password_;
     avatar := "";
     phoneNumber := "";
     verifyEmailToken := verifyEmailToken_;
     forgotPasswordToken := Opaque "";
     addresses := [];
     status := Active;
     role := Customer;
     verify := Unverified;
     createdAt := date;
     updatedAt := date |}.

(** The stored document of a user, as [findOne] returns it. *)
Definition User_doc (u : User) : Doc :=
  [ ("_id", VId (_id u));
    ("email", VString (email u));
    ("password", VString (password u));
    ("avatar", VString (avatar u));
    ("phoneNumber", VString (phoneNumber u));
    ("verifyEmailToken", VToken (verifyEmailToken u));
    ("forgotPasswordToken", VToken (forgotPasswordToken u));
    ("addresses", VArray (List.map VId (addresses u)));
    ("status", VStatus (status u));
    ("role", VRole (role u));
    ("verify", VVerify (verify u));
    ("createdAt", VDate (createdAt u));
    ("updatedAt", VDate (updatedAt u)) ].

(** Modelled from the spec: [~/models/schemas/RefreshToken.schema] is not
    among the sources; a record of an issued refresh token string with its
    issued-at and expiry, as read from the decoded token ([None] where the
    decoded payload has no such claim). *)
Record RefreshToken : Type := mkRefreshToken {
  token : Token;
  iat : option Z;
  exp : option Z
}.

(** [ProductCategory] (in the sources): [createdAt || date],
    [updatedAt || date]. *)
Record ProductCategory : Type := mkProductCategory {
  pc_id : ObjectId;
  pc_userId : ObjectId;
  pc_name : string;
  pc_createdAt : Z;
  pc_updatedAt : Z
}.

(** ** The update operators the service uses *)

(** One key of a [$set] document. *)
Inductive SetField : Type :=
  | set_password (p : string)
  | set_verifyEmailToken (t : Token)
  | set_forgotPasswordToken (t : Token)
  | set_verify (v : UserVerifyStatus).

(** One key of a [$currentDate] document. *)
Inductive DateField : Type := date_createdAt | date_updatedAt.

Record Update : Type := mkUpdate {
  dollar_set : list SetField;
  dollar_currentDate : list DateField
}.

Definition applySet (u : User) (s : SetField) : User :=
  match s with
  | set_password p =>
      mkUser (_id u) (email u) p (avatar u) (phoneNumber u)
        (verifyEmailToken u) (forgotPasswordToken u) (addresses u)
        (status u) (role u) (verify u) (createdAt u) (updatedAt u)
  | set_verifyEmailToken t =>
      mkUser (_id u) (email u) (password u) (avatar u) (phoneNumber u)
        t (forgotPasswordToken u) (addresses u)
        (status u) (role u) (verify u) (createdAt u) (updatedAt u)
  | set_forgotPasswordToken t =>
      mkUser (_id u) (email u) (password u) (avatar u) (phoneNumber u)
        (verifyEmailToken u) t (addresses u)
        (status u) (role u) (verify u) (createdAt u) (updatedAt u)
  | set_verify v =>
      mkUser (_id u) (email u) (password u) (avatar u) (phoneNumber u)
        (verifyEmailToken u) (forgotPasswordToken u) (addresses u)
        (status u) (role u) v (createdAt u) (updatedAt u)
  end.

Definition applyCurrentDate (now : Z) (u : User) (d : DateField) : User :=
  match d with
  | date_createdAt =>
      mkUser (_id u) (email u) (password u) (avatar u) (phoneNumber u)
        (verifyEmailToken u) (forgotPasswordToken u) (addresses u)
        (status u) (role u) (verify u) now (updatedAt u)
  | date_updatedAt =>
      mkUser (_id u) (email u) (password u) (avatar u) (phoneNumber u)
        (verifyEmailToken u) (forgotPasswordToken u) (addresses u)
        (status u) (role u) (verify u) (createdAt u) now
  end.

Definition applyUpdate (now : Z) (upd : Update) (u : User) : User :=
  fold_left (applyCurrentDate now) (dollar_currentDate upd)
    (fold_left applySet (dollar_set upd) u).

(** ** The world a request runs in

    The three collections, the mails sent, the clock ([Date.now()], in
    milliseconds) and the ids that [new ObjectId()] returns: the next one
    and, by position, the ones after it.  The driver builds an id from the
    time, bytes drawn at random by the process and a counter; all of that
    is outside the program, so the sequence of ids is whatever the world
    holds, with no order or freshness assumed. *)
Inductive Mail : Type :=
  | VerifyEmailMail (to : string) (t : Token)
  | ForgotPasswordMail (to : string) (t : Token).

Record World : Type := mkWorld {
  users : list User;
  refreshTokens : list RefreshToken;
  productCategories : list ProductCategory;
  outbox : list Mail;
  clock : Z;
  nextObjectId : ObjectId;
  laterObjectIds : nat -> ObjectId
}.

Definition with_users (l : list User) (w : World) : World :=
  mkWorld l (refreshTokens w) (productCategories w) (outbox w) (clock w)
    (nextObjectId w) (laterObjectIds w).

Definition with_refreshTokens (l : list RefreshToken) (w : World) : World :=
  mkWorld (users w) l (productCategories w) (outbox w) (clock w)
    (nextObjectId w) (laterObjectIds w).

Definition with_outbox (l : list Mail) (w : World) : World :=
  mkWorld (users w) (refreshTokens w) (productCategories w) l (clock w)
    (nextObjectId w) (laterObjectIds w).

Definition with_nextObjectId (o : ObjectId) (later : nat -> ObjectId)
    (w : World) : World :=
  mkWorld (users w) (refreshTokens w) (productCategories w) (outbox w)
    (clock w) o later.

(** ** Asynchronous code: state and failure

    An operation runs from a world to a result or a failure and the world
    it leaves; a failure does not roll the world back. *)
Definition M (A : Type) : Type := World -> Result A * World.

Definition ret {A : Type} (a : A) : M A := fun w => (Ok a, w).

Definition throw {A : Type} (e : Error) : M A := fun w => (Err e, w).

Definition bind {A B : Type} (m : M A) (k : A -> M B) : M B :=
  fun w =>
    match m w with
    | (Ok a, w') => k a w'
    | (Err e, w') => (Err e, w')
    end.

Notation "'await' x <- m ; k" := (bind m (fun x => k))
  (at level 10, x pattern, m at level 100, k at level 200, only parsing).

(** [Promise.all([a, b])]: both calls are started when the array is built,
    so the effects of [b] happen also when [a] rejects; the result rejects
    with the first rejection. *)
Definition Promise_all {A B : Type} (a : M A) (b : M B) : M (A * B) :=
  fun w =>
    let (ra, w1) := a w in
    let (rb, w2) := b w1 in
    (match ra, rb with
     | Ok x, Ok y => Ok (x, y)
     | Err e, _ => Err e
     | Ok _, Err e => Err e
     end, w2).

Definition run {A : Type} (m : M A) (w : World) : Result A := fst (m w).
Definition exec {A : Type} (m : M A) (w : World) : World := snd (m w).

(** ** The database service ([~/services/database.services], MongoDB) *)

(** [users.findOne({ _id })]: the first document with that id. *)
Fixpoint findUser (id : ObjectId) (l : list User) : option User :=
  match l with
  | [] => None
  | u :: rest => if N.eqb (_id u) id then Some u else findUser id rest
  end.

(** The first document with that id, updated; nothing when there is none
    (no upsert). *)
Fixpoint updateUser (id : ObjectId) (f : User -> User) (l : list User)
    : list User :=
  match l with
  | [] => []
  | u :: rest =>
      if N.eqb (_id u) id then f u :: rest else u :: updateUser id f rest
  end.

Definition users_findOne (id : ObjectId) : M (option User) :=
  fun w => (Ok (findUser id (users w)), w).

(** [users.insertOne(doc)]: [_id] is unique. *)
Definition users_insertOne (u : User) : M unit :=
  fun w =>
    match findUser (_id u) (users w) with
    | Some _ => (Err MongoServerError, w)
    | None => (Ok tt, with_users (users w ++ [u]) w)
    end.

Definition users_updateOne (id : ObjectId) (upd : Update) : M unit :=
  fun w =>
    (Ok tt, with_users (updateUser id (applyUpdate (clock w) upd) (users w)) w).

(** [users.findOneAndUpdate(filter, update)] with no options: the driver's
    default is [returnDocument: 'before'], so the document returned is the
    one found, as it was before the update; [null] when none matches. *)
Definition users_findOneAndUpdate (id : ObjectId) (upd : Update)
    : M (option User) :=
  fun w =>
    (Ok (findUser id (users w)),
     with_users (updateUser id (applyUpdate (clock w) upd) (users w)) w).

(** [refreshTokens.findOne({ token })]. *)
Fixpoint findRefreshToken (t : Token) (l : list RefreshToken)
    : option RefreshToken :=
  match l with
  | [] => None
  | r :: rest =>
      if bool_decide (token r = t) then Some r else findRefreshToken t rest
  end.

(** [deleteOne({ token })] removes the first matching record only. *)
Fixpoint deleteRefreshToken (t : Token) (l : list RefreshToken)
    : list RefreshToken :=
  match l with
  | [] => []
  | r :: rest =>
      if bool_decide (token r = t) then rest
      else r :: deleteRefreshToken t rest
  end.

Definition refreshTokens_insertOne (r : RefreshToken) : M unit :=
  fun w => (Ok tt, with_refreshTokens (refreshTokens w ++ [r]) w).

Definition refreshTokens_deleteOne (t : Token) : M unit :=
  fun w =>
    (Ok tt, with_refreshTokens (deleteRefreshToken t (refreshTokens w)) w).

(** The number of stored records for a token string. *)
Definition countRefreshToken (t : Token) (l : list RefreshToken) : nat :=
  List.length (List.filter (fun r => bool_decide (token r = t)) l).

(** [productCategories.findOne({ _id })]. *)
Fixpoint findProductCategory (id : ObjectId) (l : list ProductCategory)
    : option ProductCategory :=
  match l with
  | [] => None
  | c :: rest =>
      if N.eqb (pc_id c) id then Some c else findProductCategory id rest
  end.

Definition productCategories_findOne (id : ObjectId)
    : M (option ProductCategory) :=
  fun w => (Ok (findProductCategory id (productCategories w)), w).

(** [new ObjectId()]: the next id of the world; the ids after it move up
    by one place. *)
Definition ObjectId_generate : M ObjectId :=
  fun w =>
    (Ok (nextObjectId w),
     with_nextObjectId (laterObjectIds w 0%nat)
       (fun n => laterObjectIds w (S n)) w).

(** [new Date()]. *)
Definition Date_now : M Z := fun w => (Ok (clock w), w).

(** ** Mail ([~/utils/email]) *)

(** Modelled from the spec: [sendVerifyEmail(email, token)] hands the token
    to the outbound mail collaborator. *)
Definition sendVerifyEmail (to : string) (t : Token) : M unit :=
  fun w => (Ok tt, with_outbox (outbox w ++ [VerifyEmailMail to t]) w).

(** Modelled from the spec: [sendForgotPasswordEmail(email, token)]. *)
Definition sendForgotPasswordEmail (to : string) (t : Token) : M unit :=
  fun w => (Ok tt, with_outbox (outbox w ++ [ForgotPasswordMail to t]) w).

(** Modelled from the spec: [signToken({ payload, privateKey, options })]
    of [~/utils/jwt], the promise form of [jwt.sign] at the current
    clock. *)
Definition signToken (payload : list Claim) (privateKey : string)
    (expiresIn : option Z) : M Token :=
  fun w => (jwt_sign payload privateKey expiresIn (clock w), w).

(** Modelled from the spec: [verifyToken({ token, secretOrPublicKey })] of
    [~/utils/jwt], the promise form of [jwt.verify] at the current clock. *)
Definition verifyToken (t : Token) (secretOrPublicKey : string)
    : M TokenPayload :=
  fun w => (jwt_verify t secretOrPublicKey (clock w), w).

(** What the session operations return. *)
Record TokenPair : Type := mkTokenPair {
  pair_accessToken : Token;
  pair_refreshToken : Token
}.

Record Session : Type := mkSession {
  accessToken : Token;
  refreshToken : Token;
  user : Doc
}.

(** [new ObjectId(s)] inside asynchronous code: a [BSONError] rejects. *)
Definition ObjectId_of (s : string) : M ObjectId :=
  fun w => (ObjectId_new s, w).

(** [RegisterReqBody] / [LoginReqBody] ([~/models/requests/Users.requests],
    not among the sources): the two keys the service destructures. *)
Record RegisterReqBody : Type := mkRegisterReqBody {
  body_email : string;
  body_password : string
}.

(** ** [class UserService] ([src/services/users.services.ts]) *)
Module UserService.
Section Service.

(** [ENV_CONFIG] of [~/constants/config] and [hashPassword] of
    [~/utils/crypto]: not among the sources, taken as given. *)
Variable ENV_CONFIG : Config.
Variable hashPassword : string -> string.

Definition signAccessToken (userId : string) (verify_ : UserVerifyStatus)
    (status_ : UserStatus) (role_ : UserRole) : M Token :=
  signToken
    [CUserId userId; CTokenType Access; CVerify verify_; CStatus status_;
     CRole role_]
    (JWT_ACCESS_TOKEN_SECRET ENV_CONFIG)
    (Some (JWT_ACCESS_TOKEN_EXPIRED_IN ENV_CONFIG)).

(** [if (exp)]: [undefined] and [0] take the second branch. *)
Definition signRefreshToken (userId : string) (verify_ : UserVerifyStatus)
    (status_ : UserStatus) (role_ : UserRole) (exp_ : option Z) : M Token :=
  match exp_ with
  | Some e =>
      if e =? 0 then
        signToken
          [CUserId userId; CTokenType Refresh; CStatus status_;
           CVerify verify_; CRole role_]
          (JWT_REFRESH_TOKEN_SECRET ENV_CONFIG)
          (Some (JWT_REFRESH_TOKEN_EXPIRED_IN ENV_CONFIG))
      else
        signToken
          [CUserId userId; CTokenType Refresh; CVerify verify_;
           CStatus status_; CRole role_; CExp e]
          (JWT_REFRESH_TOKEN_SECRET ENV_CONFIG)
          None
  | None =>
      signToken
        [CUserId userId; CTokenType Refresh; CStatus status_;
         CVerify verify_; CRole role_]
        (JWT_REFRESH_TOKEN_SECRET ENV_CONFIG)
        (Some (JWT_REFRESH_TOKEN_EXPIRED_IN ENV_CONFIG))
  end.

Definition signVerifyEmailToken (userId : string) : M Token :=
  signToken
    [CUserId userId; CTokenType VerifyEmail]
    (JWT_VERIFY_EMAIL_TOKEN_SECRET ENV_CONFIG)
    (Some (JWT_VERIFY_EMAIL_TOKEN_EXPIRED_IN ENV_CONFIG)).

Definition signForgotPasswordToken (userId : string) : M Token :=
  signToken
    [CUserId userId; CTokenType ForgotPassword]
    (JWT_FORGOT_PASSWORD_TOKEN_SECRET ENV_CONFIG)
    (Some (JWT_FORGOT_PASSWORD_TOKEN_EXPIRED_IN ENV_CONFIG)).

Definition signAccessAndRefreshToken (userId : string)
    (verify_ : UserVerifyStatus) (role_ : UserRole) (status_ : UserStatus)
    (exp_ : option Z) : M (Token * Token) :=
  Promise_all
    (signAccessToken userId verify_ status_ role_)
    (signRefreshToken userId verify_ status_ role_ exp_).

Definition decodeRefreshToken (refreshToken_ : Token) : M TokenPayload :=
  verifyToken refreshToken_ (JWT_REFRESH_TOKEN_SECRET ENV_CONFIG).

Definition register (data : RegisterReqBody) : M Session :=
  let email_ := body_email data in
  let password_ := body_password data in
  await userId <- ObjectId_generate;
  await verifyEmailToken_ <- signVerifyEmailToken (ObjectId_toString userId);
  await date <- Date_now;
  await _ <- Promise_all
    (sendVerifyEmail email_ verifyEmailToken_)
    (users_insertOne
       (new_User userId email_ (hashPassword password_) verifyEmailToken_
          date));
  await found <- users_findOne userId;
  match found with
  | None => throw TypeError
  | Some u =>
      await tokens <- signAccessAndRefreshToken
        (ObjectId_toString (_id u)) (verify u) (role u) (status u) None;
      let (accessToken_, refreshToken_) := tokens in
      await decoded <- decodeRefreshToken refreshToken_;
      await _ <- refreshTokens_insertOne
        (mkRefreshToken refreshToken_ (claim_iat decoded) (claim_exp decoded));
      ret (mkSession accessToken_ refreshToken_
             (omit (User_doc u)
                [ "password"; "avatar"; "phoneNumber"; "verifyEmailToken";
                  "forgotPasswordToken"; "addresses"; "status"; "role";
                  "verify" ]))
  end.

Definition login (u : User) : M TokenPair :=
  await tokens <- signAccessAndRefreshToken
    (ObjectId_toString (_id u)) (verify u) (role u) (status u) None;
  let (accessToken_, refreshToken_) := tokens in
  await decoded <- decodeRefreshToken refreshToken_;
  await _ <- refreshTokens_insertOne
    (mkRefreshToken refreshToken_ (claim_iat decoded) (claim_exp decoded));
  ret (mkTokenPair accessToken_ refreshToken_).

(** [(user as WithId<User>).email] is read while the second
    [Promise.all] array is built: on [null] it throws before the mail or
    the update is started. *)
Definition resendEmailVerify (userId : string) : M bool :=
  await both <- Promise_all
    (signVerifyEmailToken userId)
    (await oid <- ObjectId_of userId; users_findOne oid);
  let (verifyEmailToken_, found) := both in
  match found with
  | None => throw TypeError
  | Some u =>
      await _ <- Promise_all
        (sendVerifyEmail (email u) verifyEmailToken_)
        (await oid <- ObjectId_of userId;
         users_updateOne oid
           {| dollar_set := [set_verifyEmailToken verifyEmailToken_];
              dollar_currentDate := [date_updatedAt] |});
      ret true
  end.

(** [const { _id, role, status, verify } = user] on [null] throws. *)
Definition verifyEmail (userId : string) : M Session :=
  await oid <- ObjectId_of userId;
  await found <- users_findOneAndUpdate oid
    {| dollar_set := [set_verifyEmailToken (Opaque ""); set_verify Verified];
       dollar_currentDate := [date_updatedAt] |};
  match found with
  | None => throw TypeError
  | Some u =>
      await tokens <- signAccessAndRefreshToken
        (ObjectId_toString (_id u)) (verify u) (role u) (status u) None;
      let (accessToken_, refreshToken_) := tokens in
      ret (mkSession accessToken_ refreshToken_
             (omit (User_doc u)
                [ "password"; "avatar"; "phoneNumber"; "verifyEmailToken";
                  "forgotPasswordToken"; "addresses"; "status"; "role";
                  "verify" ]))
  end.

Definition logout (refreshToken_ : Token) : M bool :=
  await _ <- refreshTokens_deleteOne refreshToken_;
  ret true.

Definition refreshToken (refreshToken_ : Token) (userId : string)
    (verify_ : UserVerifyStatus) (status_ : UserStatus) (role_ : UserRole)
    (refreshTokenExp : Z) : M TokenPair :=
  await both <- Promise_all
    (signAccessAndRefreshToken userId verify_ role_ status_
       (Some refreshTokenExp))
    (refreshTokens_deleteOne refreshToken_);
  let (newAccessToken, newRefreshToken) := fst both in
  await decoded <- decodeRefreshToken newRefreshToken;
  await _ <- refreshTokens_insertOne
    (mkRefreshToken newRefreshToken (claim_iat decoded) (claim_exp decoded));
  ret (mkTokenPair newAccessToken newRefreshToken).

Definition forgotPassword (userId : string) (email_ : string) : M unit :=
  await forgotPasswordToken_ <- signForgotPasswordToken userId;
  await _ <- Promise_all
    (sendForgotPasswordEmail email_ forgotPasswordToken_)
    (await oid <- ObjectId_of userId;
     users_updateOne oid
       {| dollar_set := [set_forgotPasswordToken forgotPasswordToken_];
          dollar_currentDate := [date_updatedAt] |});
  ret tt.

Definition resetPassword (password_ : string) (userId : string) : M Session :=
  await oid <- ObjectId_of userId;
  await found <- users_findOneAndUpdate oid
    {| dollar_set :=
         [set_password (hashPassword password_);
          set_forgotPasswordToken (Opaque "")];
       dollar_currentDate := [date_createdAt] |};
  match found with
  | None => throw TypeError
  | Some u =>
      await tokens <- signAccessAndRefreshToken
        (ObjectId_toString (_id u)) (verify u) (role u) (status u) None;
      let (accessToken_, refreshToken_) := tokens in
      ret (mkSession accessToken_ refreshToken_
             (omit (User_doc u)
                [ "password"; "avatar"; "phoneNumber"; "verifyEmailToken";
                  "forgotPasswordToken"; "addresses"; "status"; "role";
                  "verify" ]))
  end.

End Service.
End UserService.

(** ** Controllers ([src/controllers/users.controllers.ts]) *)

(** The parts of an Express request the embedded handlers read: the JSON
    body, the path parameters and the [user] slot a validator may have
    filled ([None] is [undefined]). *)
Record Request : Type := mkRequest {
  req_body : RegisterReqBody;
  req_params : list (string * string);
  req_user : option User
}.

(** [res.json({ message, data })]. *)
Record Response : Type := mkResponse {
  res_message : Message;
  res_data : Doc
}.

Definition Session_doc (s : Session) : Doc :=
  [ ("accessToken", VToken (accessToken s));
    ("refreshToken", VToken (refreshToken s));
    ("user", VObject (user s)) ].

Definition TokenPair_doc (p : TokenPair) : Doc :=
  [ ("accessToken", VToken (pair_accessToken p));
    ("refreshToken", VToken (pair_refreshToken p)) ].

Section Controllers.

Variable ENV_CONFIG : Config.
Variable hashPassword : string -> string.

Definition registerController (req : Request) : M Response :=
  await result <- UserService.register ENV_CONFIG hashPassword (req_body req);
  ret {| res_message := REGISTER_SUCCESS; res_data := Session_doc result |}.

(** [req.user as WithId<User>] is only a cast: [undefined] reaches
    [login], whose destructuring throws.  [{ ...result, user }] spreads
    the two tokens and adds the [user] object as it is. *)
Definition loginController (req : Request) : M Response :=
  match req_user req with
  | None => throw TypeError
  | Some u =>
      await result <- UserService.login ENV_CONFIG u;
      ret {| res_message := LOGIN_SUCCESS;
             res_data := TokenPair_doc result ++ [("user", VObject (User_doc u))] |}
  end.

End Controllers.

(** ** Validators ([src/middlewares/products.middlewares.ts]) *)

(** White space as [validator.js]'s [trim] removes it: the characters of
    JavaScript's [\s].  A string is the sequence of the bytes of its UTF-8
    form, so a white-space character is one, two or three bytes long:
    tab, line feed, vertical tab, form feed, carriage return and space;
    U+00A0; U+1680, U+2000 to U+200A, U+2028, U+2029, U+202F, U+205F,
    U+3000 and U+FEFF. *)
Definition isSpace (c : ascii) : bool :=
  let n := N_of_ascii c in
  ((n =? 32) || ((9 <=? n) && (n <=? 13)))%N.

Definition isSpace2 (a b : ascii) : bool :=
  ((N_of_ascii a =? 194) && (N_of_ascii b =? 160))%N.

Definition isSpace3 (a b c : ascii) : bool :=
  let x := N_of_ascii a in
  let y := N_of_ascii b in
  let z := N_of_ascii c in
  (((x =? 225) && (y =? 154) && (z =? 128))
   || ((x =? 226) && (y =? 128)
       && (((128 <=? z) && (z <=? 138))
           || (z =? 168) || (z =? 169) || (z =? 175)))
   || ((x =? 226) && (y =? 129) && (z =? 159))
   || ((x =? 227) && (y =? 128) && (z =? 128))
   || ((x =? 239) && (y =? 187) && (z =? 191)))%N.

(** [str.replace(/^\s+/g, '')]. *)
Fixpoint ltrim (s : string) : string :=
  match s with
  | EmptyString => EmptyString
  | String a s1 =>
      if isSpace a then ltrim s1
      else
        match s1 with
        | EmptyString => s
        | String b s2 =>
            if isSpace2 a b then ltrim s2
            else
              match s2 with
              | EmptyString => s
              | String c s3 => if isSpace3 a b c then ltrim s3 else s
              end
        end
  end.

(** The bytes of a string from its last to its first, without the white
    space at the end of the string. *)
Fixpoint rtrimReversed (l : list ascii) : list ascii :=
  match l with
  | [] => []
  | c :: l1 =>
      if isSpace c then rtrimReversed l1
      else
        match l1 with
        | [] => l
        | b :: l2 =>
            if isSpace2 b c then rtrimReversed l2
            else
              match l2 with
              | [] => l
              | a :: l3 => if isSpace3 a b c then rtrimReversed l3 else l
              end
        end
  end.

(** [rtrim]: the index of the last character is moved down while
    [/\s/] holds of it, and the string is cut after it. *)
Definition rtrim (s : string) : string :=
  string_of_list_ascii
    (List.rev (rtrimReversed (List.rev (list_ascii_of_string s)))).

Definition trim (s : string) : string := rtrim (ltrim s).

(** [req.params[name]] as the sanitizer sees it: a missing parameter is
    the empty string. *)
Fixpoint param (name : string) (ps : list (string * string)) : string :=
  match ps with
  | [] => ""
  | (k, v) :: rest => if String.eqb k name then v else param name rest
  end.

(** The [custom.options] function of [productCategoryIdValidator]:
    [!value] holds of the empty string. *)
Definition productCategoryId_custom (value : string) : M bool :=
  if String.eqb value "" then
    throw (ErrorWithStatus PRODUCT_CATEGORY_ID_IS_REQUIRED BadRequest)
  else if negb (ObjectId_isValid value) then
    throw (ErrorWithStatus PRODUCT_CATEGORY_ID_IS_INVALID BadRequest)
  else
    await oid <- ObjectId_of value;
    await productCategory <- productCategories_findOne oid;
    match productCategory with
    | None => throw (ErrorWithStatus PRODUCT_CATEGORY_NOT_FOUND NotFound)
    | Some _ => ret true
    end.

(** [validate(checkSchema({ productCategoryId: { trim, custom } },
    ['params']))]: the parameter is trimmed, then given to the custom
    function.  [Ok tt] is [next()]: the request passes on; an
    [ErrorWithStatus] thrown by the custom function is what the request is
    rejected with ([validate], in [~/utils/validation], is not among the
    sources: it is taken to hand such an error on unchanged). *)
Definition productCategoryIdValidator (req : Request) : M unit :=
  let value := trim (param "productCategoryId" (req_params req)) in
  await _ <- productCategoryId_custom value;
  ret tt.

(** ** Concrete data for the examples *)

Definition exampleConfig : Config :=
  {| JWT_ACCESS_TOKEN_SECRET := "access-secret";
     JWT_REFRESH_TOKEN_SECRET := "refresh-secret";
     JWT_VERIFY_EMAIL_TOKEN_SECRET := "verify-email-secret";
     JWT_FORGOT_PASSWORD_TOKEN_SECRET := "forgot-password-secret";
     JWT_ACCESS_TOKEN_EXPIRED_IN := 900;
     JWT_REFRESH_TOKEN_EXPIRED_IN := 8640000;
     JWT_VERIFY_EMAIL_TOKEN_EXPIRED_IN := 604800;
     JWT_FORGOT_PASSWORD_TOKEN_EXPIRED_IN := 604800 |}.

Definition exampleHash (p : string) : string := "digest:" ++ p.

(** An empty store, the clock at 1 700 000 000.5 s, the next id 7; the
    ids after it are taken to be 8, 9, ... *)
Definition emptyWorld : World :=
  {| users := [];
     refreshTokens := [];
     productCategories := [];
     outbox := [];
     clock := 1700000000500;
     nextObjectId := 7%N;
     laterObjectIds := fun n => (8 + N.of_nat n)%N |}.

(** The world after [register("a@x.com", "secret")] on the empty store:
    one unverified user (id 7) and her refresh record. *)
Definition registeredWorld : World :=
  Eval vm_compute in
    exec (UserService.register exampleConfig exampleHash
            (mkRegisterReqBody "a@x.com" "secret")) emptyWorld.

(** The refresh token that registration issued. *)
Definition registeredRefreshToken : Token :=
  JWT [CUserId "000000000000000000000007"; CTokenType Refresh;
       CStatus Active; CVerify Unverified; CRole Customer;
       CIat 1700000000; CExp 1708640000] "refresh-secret".

(** The string form of the id 7. *)
Definition hexId7 : string := "000000000000000000000007".

(** The user that registration stored. *)
Definition registeredUser : User :=
  {| _id := 7%N;
     email := "a@x.com";
     password := "digest:secret";
     avatar := "";
     phoneNumber := "";
     verifyEmailToken :=
       JWT [CUserId "000000000000000000000007"; CTokenType VerifyEmail;
            CIat 1700000000; CExp 1700604800] "verify-email-secret";
     forgotPasswordToken := Opaque "";
     addresses := [];
     status := Active;
     role := Customer;
     verify := Unverified;
     createdAt := 1700000000500;
     updatedAt := 1700000000500 |}.

(** The same store five seconds after the registered refresh token has
    expired. *)
Definition lateWorld : World :=
  {| users := users registeredWorld;
     refreshTokens := refreshTokens registeredWorld;
     productCategories := productCategories registeredWorld;
     outbox := outbox registeredWorld;
     clock := 1708640005000;
     nextObjectId := nextObjectId registeredWorld;
     laterObjectIds := laterObjectIds registeredWorld |}.

(** A store with one product category, of id 10 (hexadecimal [a]). *)
Definition categoryWorld : World :=
  {| users := [];
     refreshTokens := [];
     productCategories :=
       [ {| pc_id := 10%N; pc_userId := 7%N; pc_name := "Shoes";
            pc_createdAt := 1700000000500; pc_updatedAt := 1700000000500 |} ];
     outbox := [];
     clock := 1700000000500;
     nextObjectId := 11%N;
     laterObjectIds := fun n => (12 + N.of_nat n)%N |}.

(** A request with the given [productCategoryId] path parameter. *)
Definition categoryRequest (id : string) : Request :=
  {| req_body := mkRegisterReqBody "" "";
     req_params := [("productCategoryId", id)];
     req_user := None |}.

(** A login request after the validator has attached the stored user. *)
Definition loginRequest : Request :=
  {| req_body := mkRegisterReqBody "a@x.com" "secret";
     req_params := [];
     req_user := Some registeredUser |}.

(** What [register("a@x.com", "secret")] returned on the empty store. *)
Definition registeredSession : Session :=
  Eval vm_compute in
    match run (UserService.register exampleConfig exampleHash
                 (mkRegisterReqBody "a@x.com" "secret")) emptyWorld with
    | Ok s => s
    | Err _ => mkSession (Opaque "") (Opaque "") []
    end.

(** What the login controller answers to [loginRequest]. *)
Definition loginResponse : Response :=
  Eval vm_compute in
    match run (loginController exampleConfig loginRequest) registeredWorld with
    | Ok r => r
    | Err _ => mkResponse LOGIN_SUCCESS []
    end.

(** The registered store a minute later. *)
Definition minuteLaterWorld : World :=
  {| users := users registeredWorld;
     refreshTokens := refreshTokens registeredWorld;
     productCategories := productCategories registeredWorld;
     outbox := outbox registeredWorld;
     clock := 1700000060500;
     nextObjectId := nextObjectId registeredWorld;
     laterObjectIds := laterObjectIds registeredWorld |}.

(** The registered user logs in within the second of her registration:
    the store then holds two records of one refresh token string. *)
Definition reloggedWorld : World :=
  Eval vm_compute in
    exec (UserService.login exampleConfig registeredUser) registeredWorld.

(** The registered store when the generator returns the id 7 again. *)
Definition takenIdWorld : World :=
  {| users := users registeredWorld;
     refreshTokens := refreshTokens registeredWorld;
     productCategories := productCategories registeredWorld;
     outbox := outbox registeredWorld;
     clock := clock registeredWorld;
     nextObjectId := 7%N;
     laterObjectIds := laterObjectIds registeredWorld |}.

(** The verification status a token carries in its claims. *)
Definition token_verify (t : Token) : option UserVerifyStatus :=
  match jwt_decode t with
  | Some p => claim_verify p
  | None => None
  end.

(** The three sensitive keys are absent from a document. *)
Definition sanitized (d : Doc) : Prop :=
  field "password" d = None /\
  field "verifyEmailToken" d = None /\
  field "forgotPasswordToken" d = None.

(** The world after the first half of [register]: the id is consumed,
    the mail is sent and the user is inserted. *)
Definition afterInsert (cfg : Config) (hash : string -> string)
    (data : RegisterReqBody) (w : World) : World :=
  let id := nextObjectId w in
  let verifyEmailToken_ :=
    JWT [CUserId (ObjectId_toString id); CTokenType VerifyEmail;
         CIat (seconds (clock w));
         CExp (seconds (clock w) + JWT_VERIFY_EMAIL_TOKEN_EXPIRED_IN cfg)]
      (JWT_VERIFY_EMAIL_TOKEN_SECRET cfg) in
  mkWorld
    (users w
     ++ [new_User id (body_email data) (hash (body_password data))
           verifyEmailToken_ (clock w)])
    (refreshTokens w)
    (productCategories w)
    (outbox w ++ [VerifyEmailMail (body_email data) verifyEmailToken_])
    (clock w)
    (laterObjectIds w 0%nat)
    (fun n => laterObjectIds w (S n)).

(** ** Predicates on the store *)

(** The ids of the stored users, in the order of the collection. *)
Definition userIds (w : World) : list ObjectId := List.map _id (users w).

(** No two stored users share an [_id]. *)
Definition uniqueIds (w : World) : Prop := List.NoDup (userIds w).

(** A refresh record agrees with its token: the token is well formed and
    the stored issued-at and expiry are the token's own claims. *)
Definition recordMatches (r : RefreshToken) : Prop :=
  match jwt_decode (token r) with
  | Some claims => iat r = claim_iat claims /\ exp r = claim_exp claims
  | None => False
  end.

Definition recordsMatch (w : World) : Prop :=
  List.Forall recordMatches (refreshTokens w).

(** A string of white-space characters only (the empty string
    included). *)
Fixpoint allSpace (s : string) : bool :=
  match s with
  | EmptyString => true
  | String a s1 =>
      if isSpace a then allSpace s1
      else
        match s1 with
        | EmptyString => false
        | String b s2 =>
            if isSpace2 a b then allSpace s2
            else
              match s2 with
              | EmptyString => false
              | String c s3 => if isSpace3 a b c then allSpace s3 else false
              end
        end
  end.

(** The no-break space U+00A0, a white-space character of two bytes. *)
Definition nbsp : string :=
  String (ascii_of_N 194) (String (ascii_of_N 160) EmptyString).

(** The access token the service signs at the clock of [w]. *)
Definition issuedAccessToken (cfg : Config) (userId : string)
    (v : UserVerifyStatus) (s : UserStatus) (r : UserRole) (w : World)
    : Token :=
  JWT [CUserId userId; CTokenType Access; CVerify v; CStatus s; CRole r;
       CIat (seconds (clock w));
       CExp (seconds (clock w) + JWT_ACCESS_TOKEN_EXPIRED_IN cfg)]
    (JWT_ACCESS_TOKEN_SECRET cfg).

(** The refresh token the service signs at the clock of [w] when no expiry
    is pinned ([register], [login]). *)
Definition issuedRefreshToken (cfg : Config) (userId : string)
    (v : UserVerifyStatus) (s : UserStatus) (r : UserRole) (w : World)
    : Token :=
  JWT [CUserId userId; CTokenType Refresh; CStatus s; CVerify v; CRole r;
       CIat (seconds (clock w));
       CExp (seconds (clock w) + JWT_REFRESH_TOKEN_EXPIRED_IN cfg)]
    (JWT_REFRESH_TOKEN_SECRET cfg).

(** The refresh token a rotation signs at the clock of [w] with the expiry
    [e] pinned. *)
Definition rotatedToken (cfg : Config) (userId : string)
    (v : UserVerifyStatus) (s : UserStatus) (r : UserRole) (e : Z)
    (w : World) : Token :=
  JWT [CUserId userId; CTokenType Refresh; CVerify v; CStatus s; CRole r;
       CExp e; CIat (seconds (clock w))]
    (JWT_REFRESH_TOKEN_SECRET cfg).

(** The verify-email and forgot-password tokens signed at the clock of
    [w]. *)
Definition issuedVerifyEmailToken (cfg : Config) (userId : string)
    (w : World) : Token :=
  JWT [CUserId userId; CTokenType VerifyEmail; CIat (seconds (clock w));
       CExp (seconds (clock w) + JWT_VERIFY_EMAIL_TOKEN_EXPIRED_IN cfg)]
    (JWT_VERIFY_EMAIL_TOKEN_SECRET cfg).

Definition issuedForgotPasswordToken (cfg : Config) (userId : string)
    (w : World) : Token :=
  JWT [CUserId userId; CTokenType ForgotPassword; CIat (seconds (clock w));
       CExp (seconds (clock w) + JWT_FORGOT_PASSWORD_TOKEN_EXPIRED_IN cfg)]
    (JWT_FORGOT_PASSWORD_TOKEN_SECRET cfg).

(** A register request. *)
Definition registerRequest : Request :=
  {| req_body := mkRegisterReqBody "a@x.com" "secret";
     req_params := [];
     req_user := None |}.

(** ** Sequences of calls

    One call of a public method of [UserService], or the clock moving on
    between two calls. *)
Inductive Call : Type :=
  | CallRegister (data : RegisterReqBody)
  | CallLogin (u : User)
  | CallResendEmailVerify (userId : string)
  | CallVerifyEmail (userId : string)
  | CallLogout (refreshToken_ : Token)
  | CallRefreshToken (refreshToken_ : Token) (userId : string)
      (v : UserVerifyStatus) (s : UserStatus) (r : UserRole)
      (refreshTokenExp : Z)
  | CallForgotPassword (userId : string) (email_ : string)
  | CallResetPassword (password_ : string) (userId : string)
  | ClockMoves (now : Z).

(** The world a call leaves, whether it succeeds or fails. *)
Definition step (cfg : Config) (hash : string -> string) (c : Call)
    (w : World) : World :=
  match c with
  | CallRegister data => exec (UserService.register cfg hash data) w
  | CallLogin u => exec (UserService.login cfg u) w
  | CallResendEmailVerify userId =>
      exec (UserService.resendEmailVerify cfg userId) w
  | CallVerifyEmail userId => exec (UserService.verifyEmail cfg userId) w
  | CallLogout t => exec (UserService.logout t) w
  | CallRefreshToken t userId v s r e =>
      exec (UserService.refreshToken cfg t userId v s r e) w
  | CallForgotPassword userId email_ =>
      exec (UserService.forgotPassword cfg userId email_) w
  | CallResetPassword pw userId =>
      exec (UserService.resetPassword cfg hash pw userId) w
  | ClockMoves now =>
      mkWorld (users w) (refreshTokens w) (productCategories w) (outbox w)
        now (nextObjectId w) (laterObjectIds w)
  end.

(** The world after a sequence of calls, first call first. *)
Definition runCalls (cfg : Config) (hash : string -> string)
    (calls : list Call) (w : World) : World :=
  fold_left (fun acc c => step cfg hash c acc) calls w.

(** A short session: register, verify the email a second later, log in two
    seconds after that, rotate, log out. *)
Definition exampleCalls : list Call :=
  [ CallRegister (mkRegisterReqBody "a@x.com" "secret");
    ClockMoves 1700000001500;
    CallVerifyEmail hexId7;
    ClockMoves 1700000003500;
    CallLogin registeredUser;
    CallRefreshToken registeredRefreshToken hexId7 Unverified Active Customer
      1708640000;
    CallLogout registeredRefreshToken ].

(** Projections of an updated world. *)
Ltac world_simpl :=
  cbn [users refreshTokens productCategories outbox clock nextObjectId
       laterObjectIds with_users with_refreshTokens with_outbox
       with_nextObjectId fst snd].

(** ** Lemmas on the collections *)

Lemma secret_matches (k : string) : bool_decide (k = k) = true.
Proof. apply bool_decide_eq_true_2. reflexivity. Qed.

Lemma with_users_same (w : World) : with_users (users w) w = w.
Proof. destruct w; reflexivity. Qed.

Lemma updateUser_absent (id : ObjectId) (f : User -> User) (l : list User) :
  findUser id l = None -> updateUser id f l = l.
Proof.
  induction l as [|x l IH]; simpl; [reflexivity|].
  destruct (N.eqb (_id x) id); [discriminate|].
  intros H. now rewrite IH.
Qed.

Lemma findUser_updateUser (id : ObjectId) (f : User -> User) (l : list User)
    (u : User) :
  (forall x, _id (f x) = _id x) ->
  findUser id l = Some u ->
  findUser id (updateUser id f l) = Some (f u).
Proof.
  intros Hf. induction l as [|x l IH]; simpl; [discriminate|].
  destruct (N.eqb (_id x) id) eqn:E.
  - intros [= <-]. simpl. now rewrite Hf, E.
  - intros H. simpl. rewrite E. now apply IH.
Qed.

Lemma findUser_updateUser_other (id id' : ObjectId) (f : User -> User)
    (l : list User) :
  (forall x, _id (f x) = _id x) ->
  id' <> id ->
  findUser id' (updateUser id f l) = findUser id' l.
Proof.
  intros Hf Hne. induction l as [|x l IH]; simpl; [reflexivity|].
  destruct (N.eqb (_id x) id) eqn:E.
  - simpl. rewrite Hf. apply N.eqb_eq in E.
    destruct (N.eqb (_id x) id') eqn:E'; [|reflexivity].
    apply N.eqb_eq in E'. congruence.
  - simpl. destruct (N.eqb (_id x) id'); [reflexivity|exact IH].
Qed.

Lemma findUser_app_fresh (id : ObjectId) (l : list User) (u : User) :
  findUser id l = None -> _id u = id -> findUser id (l ++ [u]) = Some u.
Proof.
  intros Hnone Hid. induction l as [|x l IH]; simpl in *.
  - subst. now rewrite N.eqb_refl.
  - destruct (N.eqb (_id x) id); [discriminate|]. now apply IH.
Qed.

Lemma applyUpdate_id (now : Z) (upd : Update) (u : User) :
  _id (applyUpdate now upd u) = _id u.
Proof.
  unfold applyUpdate. destruct upd as [sets dates]. simpl.
  assert (Hs : forall l x, _id (fold_left applySet l x) = _id x).
  { induction l as [|s l IH]; intros x; simpl; [reflexivity|].
    rewrite IH. now destruct s. }
  assert (Hd : forall l x, _id (fold_left (applyCurrentDate now) l x) = _id x).
  { induction l as [|d l IH]; intros x; simpl; [reflexivity|].
    rewrite IH. now destruct d. }
  now rewrite Hd, Hs.
Qed.

Lemma field_omit (key : string) (o : Doc) (paths : list string) :
  existsb (String.eqb key) paths = true -> field key (omit o paths) = None.
Proof.
  intros Hin. induction o as [|[k v] o IH]; simpl; [reflexivity|].
  destruct (existsb (String.eqb k) paths) eqn:Ek; simpl.
  - exact IH.
  - destruct (String.eqb k key) eqn:E; [|exact IH].
    apply String.eqb_eq in E. subst. congruence.
Qed.

Lemma findRefreshToken_count (t : Token) (l : list RefreshToken) :
  countRefreshToken t l = 0%nat -> findRefreshToken t l = None.
Proof.
  unfold countRefreshToken.
  induction l as [|r l IH]; simpl; [reflexivity|].
  destruct (bool_decide (token r = t)); simpl; [discriminate|exact IH].
Qed.

Lemma countRefreshToken_delete (t : Token) (l : list RefreshToken) :
  countRefreshToken t (deleteRefreshToken t l)
  = Nat.pred (countRefreshToken t l).
Proof.
  unfold countRefreshToken.
  induction l as [|r l IH]; simpl; [reflexivity|].
  destruct (bool_decide (token r = t)) eqn:E; simpl; [reflexivity|].
  now rewrite E.
Qed.

(** ** The session service *)

Section SessionProperties.

Variable cfg : Config.
Variable hash : string -> string.

(** Signing never fails for the payloads the service builds, and leaves
    the world as it is. *)
Lemma signAccessAndRefreshToken_fresh (userId : string)
    (v : UserVerifyStatus) (r : UserRole) (s : UserStatus) (w : World) :
  UserService.signAccessAndRefreshToken cfg userId v r s None w
  = (Ok (JWT [CUserId userId; CTokenType Access; CVerify v; CStatus s;
              CRole r; CIat (seconds (clock w));
              CExp (seconds (clock w) + JWT_ACCESS_TOKEN_EXPIRED_IN cfg)]
           (JWT_ACCESS_TOKEN_SECRET cfg),
         JWT [CUserId userId; CTokenType Refresh; CStatus s; CVerify v;
              CRole r; CIat (seconds (clock w));
              CExp (seconds (clock w) + JWT_REFRESH_TOKEN_EXPIRED_IN cfg)]
           (JWT_REFRESH_TOKEN_SECRET cfg)),
     w).
Proof. reflexivity. Qed.

Lemma signAccessAndRefreshToken_pinned (userId : string)
    (v : UserVerifyStatus) (r : UserRole) (s : UserStatus) (e : Z)
    (w : World) :
  e <> 0 ->
  UserService.signAccessAndRefreshToken cfg userId v r s (Some e) w
  = (Ok (JWT [CUserId userId; CTokenType Access; CVerify v; CStatus s;
              CRole r; CIat (seconds (clock w));
              CExp (seconds (clock w) + JWT_ACCESS_TOKEN_EXPIRED_IN cfg)]
           (JWT_ACCESS_TOKEN_SECRET cfg),
         JWT [CUserId userId; CTokenType Refresh; CVerify v; CStatus s;
              CRole r; CExp e; CIat (seconds (clock w))]
           (JWT_REFRESH_TOKEN_SECRET cfg)),
     w).
Proof.
  intros He.
  unfold UserService.signAccessAndRefreshToken, UserService.signRefreshToken.
  apply Z.eqb_neq in He. rewrite He. reflexivity.
Qed.

(** C1 (what the code does).  For every user present in the store,
    [verifyEmail(userId)] succeeds, and afterwards the stored user has an
    empty verify-email token and status [Verified]; but both tokens it
    returns carry in their claims the verification status the user had
    BEFORE the update, because [findOneAndUpdate] returns the document as
    it was found. *)
Theorem verifyEmail_tokens_carry_old_status (userId : string)
    (oid : ObjectId) (u : User) (w : World) :
  ObjectId_new userId = Ok oid ->
  findUser oid (users w) = Some u ->
  exists s : Session,
    run (UserService.verifyEmail cfg userId) w = Ok s /\
    (exists u' : User,
        findUser oid (users (exec (UserService.verifyEmail cfg userId) w))
        = Some u' /\
        verifyEmailToken u' = Opaque "" /\
        verify u' = Verified) /\
    token_verify (accessToken s) = Some (verify u) /\
    token_verify (refreshToken s) = Some (verify u).
Proof.
  intros Hid Hu.
  unfold run, exec, UserService.verifyEmail, bind, ObjectId_of,
    users_findOneAndUpdate.
  rewrite Hid, Hu.
  rewrite signAccessAndRefreshToken_fresh. cbn [fst snd ret].
  eexists. split; [reflexivity|]. split; [|split; reflexivity].
  eexists. split.
  - cbn [users with_users].
    apply findUser_updateUser; [intros x; apply applyUpdate_id | exact Hu].
  - split; reflexivity.
Qed.

(** What [refreshToken] does step by step when the pinned expiry is a
    non-zero number: sign, delete, then decode the new token, which
    fails exactly when that expiry is not ahead of the clock. *)
Lemma refreshToken_unfold (old : Token) (userId : string)
    (v : UserVerifyStatus) (s : UserStatus) (r : UserRole) (e : Z)
    (w : World) :
  e <> 0 ->
  UserService.refreshToken cfg old userId v s r e w
  = let new :=
      JWT [CUserId userId; CTokenType Refresh; CVerify v; CStatus s;
           CRole r; CExp e; CIat (seconds (clock w))]
        (JWT_REFRESH_TOKEN_SECRET cfg) in
    let deleted :=
      with_refreshTokens (deleteRefreshToken old (refreshTokens w)) w in
    if e <=? seconds (clock w) then (Err TokenExpiredError, deleted)
    else
      (Ok (mkTokenPair
             (JWT [CUserId userId; CTokenType Access; CVerify v; CStatus s;
                   CRole r; CIat (seconds (clock w));
                   CExp (seconds (clock w)
                         + JWT_ACCESS_TOKEN_EXPIRED_IN cfg)]
                (JWT_ACCESS_TOKEN_SECRET cfg))
             new),
       with_refreshTokens
         (deleteRefreshToken old (refreshTokens w)
          ++ [mkRefreshToken new (Some (seconds (clock w))) (Some e)])
         w).
Proof.
  intros He.
  unfold UserService.refreshToken, bind, Promise_all.
  rewrite signAccessAndRefreshToken_pinned by exact He.
  unfold refreshTokens_deleteOne, UserService.decodeRefreshToken,
    verifyToken, jwt_verify.
  cbn [fst snd clock with_refreshTokens claim_exp].
  rewrite secret_matches.
  destruct (e <=? seconds (clock w)); reflexivity.
Qed.

(** C3 (amended).  For every refresh token string [t] that the store
    records at most once: [logout(t)] succeeds and leaves no record for
    [t], so a lookup of [t] in the store finds nothing; the service's
    [refreshToken] does no such lookup, and presented with [t] and an
    expiry ahead of the clock it does not fail: it returns a new pair. *)
Theorem logout_then_refreshToken_not_rejected (t : Token) (userId : string)
    (v : UserVerifyStatus) (s : UserStatus) (r : UserRole) (e : Z)
    (w : World) :
  (countRefreshToken t (refreshTokens w) <= 1)%nat ->
  e <> 0 ->
  seconds (clock w) < e ->
  run (UserService.logout t) w = Ok true /\
  findRefreshToken t (refreshTokens (exec (UserService.logout t) w)) = None /\
  exists p : TokenPair,
    run (UserService.refreshToken cfg t userId v s r e)
      (exec (UserService.logout t) w) = Ok p.
Proof.
  intros Hcount He Hlt.
  split; [reflexivity|]. split.
  - unfold exec, UserService.logout, bind, refreshTokens_deleteOne.
    cbn [fst snd ret refreshTokens with_refreshTokens].
    apply findRefreshToken_count. rewrite countRefreshToken_delete. lia.
  - unfold run. rewrite refreshToken_unfold by exact He. cbv zeta.
    cbn [exec UserService.logout bind refreshTokens_deleteOne fst snd ret
         clock with_refreshTokens].
    assert (Hleb : (e <=? seconds (clock w)) = false)
      by (apply Z.leb_gt; exact Hlt).
    rewrite Hleb. eexists. reflexivity.
Qed.

(** [login] step by step: the new refresh token is decoded at the clock
    it was signed at, which fails exactly when the configured refresh
    duration is not positive. *)
Lemma login_unfold (u : User) (w : World) :
  UserService.login cfg u w
  = let access :=
      JWT [CUserId (ObjectId_toString (_id u)); CTokenType Access;
           CVerify (verify u); CStatus (status u); CRole (role u);
           CIat (seconds (clock w));
           CExp (seconds (clock w) + JWT_ACCESS_TOKEN_EXPIRED_IN cfg)]
        (JWT_ACCESS_TOKEN_SECRET cfg) in
    let refresh :=
      JWT [CUserId (ObjectId_toString (_id u)); CTokenType Refresh;
           CStatus (status u); CVerify (verify u); CRole (role u);
           CIat (seconds (clock w));
           CExp (seconds (clock w) + JWT_REFRESH_TOKEN_EXPIRED_IN cfg)]
        (JWT_REFRESH_TOKEN_SECRET cfg) in
    if seconds (clock w) + JWT_REFRESH_TOKEN_EXPIRED_IN cfg
       <=? seconds (clock w)
    then (Err TokenExpiredError, w)
    else
      (Ok (mkTokenPair access refresh),
       with_refreshTokens
         (refreshTokens w
          ++ [mkRefreshToken refresh (Some (seconds (clock w)))
                (Some (seconds (clock w)
                       + JWT_REFRESH_TOKEN_EXPIRED_IN cfg))])
         w).
Proof.
  unfold UserService.login, bind.
  rewrite signAccessAndRefreshToken_fresh.
  unfold UserService.decodeRefreshToken, verifyToken.
  cbn [jwt_verify claim_exp]. rewrite secret_matches.
  cbv zeta.
  destruct (seconds (clock w) + JWT_REFRESH_TOKEN_EXPIRED_IN cfg
            <=? seconds (clock w)); reflexivity.
Qed.

(** [register] when the generated id is already taken: the insert is
    refused, nothing is added to either collection. *)
Lemma register_duplicate (data : RegisterReqBody) (w : World) (u0 : User) :
  findUser (nextObjectId w) (users w) = Some u0 ->
  run (UserService.register cfg hash data) w = Err MongoServerError /\
  users (exec (UserService.register cfg hash data) w) = users w /\
  refreshTokens (exec (UserService.register cfg hash data) w)
  = refreshTokens w.
Proof.
  intros Hdup.
  unfold run, exec, UserService.register, bind, Promise_all,
    ObjectId_generate, UserService.signVerifyEmailToken, signToken,
    Date_now, sendVerifyEmail, users_insertOne.
  cbn [jwt_sign claim_iat claim_exp fst snd clock users with_nextObjectId
       with_outbox new_User _id app].
  rewrite Hdup. cbn. repeat split; reflexivity.
Qed.

(** [register] with a fresh generated id. *)
Lemma register_fresh (data : RegisterReqBody) (w : World) :
  findUser (nextObjectId w) (users w) = None ->
  UserService.register cfg hash data w
  = let id := nextObjectId w in
    let u :=
      new_User id (body_email data) (hash (body_password data))
        (JWT [CUserId (ObjectId_toString id); CTokenType VerifyEmail;
              CIat (seconds (clock w));
              CExp (seconds (clock w)
                    + JWT_VERIFY_EMAIL_TOKEN_EXPIRED_IN cfg)]
           (JWT_VERIFY_EMAIL_TOKEN_SECRET cfg))
        (clock w) in
    let access :=
      JWT [CUserId (ObjectId_toString id); CTokenType Access;
           CVerify Unverified; CStatus Active; CRole Customer;
           CIat (seconds (clock w));
           CExp (seconds (clock w) + JWT_ACCESS_TOKEN_EXPIRED_IN cfg)]
        (JWT_ACCESS_TOKEN_SECRET cfg) in
    let refresh :=
      JWT [CUserId (ObjectId_toString id); CTokenType Refresh;
           CStatus Active; CVerify Unverified; CRole Customer;
           CIat (seconds (clock w));
           CExp (seconds (clock w) + JWT_REFRESH_TOKEN_EXPIRED_IN cfg)]
        (JWT_REFRESH_TOKEN_SECRET cfg) in
    if seconds (clock w) + JWT_REFRESH_TOKEN_EXPIRED_IN cfg
       <=? seconds (clock w)
    then (Err TokenExpiredError, afterInsert cfg hash data w)
    else
      (Ok (mkSession access refresh
             [("_id", VId id); ("email", VString (body_email data));
              ("createdAt", VDate (clock w));
              ("updatedAt", VDate (clock w))]),
       with_refreshTokens
         (refreshTokens w
          ++ [mkRefreshToken refresh (Some (seconds (clock w)))
                (Some (seconds (clock w)
                       + JWT_REFRESH_TOKEN_EXPIRED_IN cfg))])
         (afterInsert cfg hash data w)).
Proof.
  intros Hfresh.
  unfold UserService.register, bind, Promise_all,
    ObjectId_generate, UserService.signVerifyEmailToken, signToken,
    Date_now, sendVerifyEmail, users_insertOne, users_findOne.
  cbn [jwt_sign claim_iat claim_exp fst snd clock users with_nextObjectId
       with_outbox with_users new_User _id app nextObjectId].
  rewrite Hfresh.
  cbn [fst snd clock users with_nextObjectId with_outbox with_users
       nextObjectId].
  rewrite (findUser_app_fresh _ _ _ Hfresh) by reflexivity.
  rewrite signAccessAndRefreshToken_fresh.
  unfold UserService.decodeRefreshToken, verifyToken.
  cbn [jwt_verify claim_exp verify status role _id].
  rewrite secret_matches. cbv zeta. unfold afterInsert. world_simpl.
  destruct (seconds (clock w) + JWT_REFRESH_TOKEN_EXPIRED_IN cfg
            <=? seconds (clock w)); reflexivity.
Qed.

(** [refreshToken] when the expiry given is the number 0: [if (exp)]
    takes the branch that computes a new expiry from the configured
    duration. *)
Lemma refreshToken_unfold_zero (old : Token) (userId : string)
    (v : UserVerifyStatus) (s : UserStatus) (r : UserRole) (w : World) :
  UserService.refreshToken cfg old userId v s r 0 w
  = let new :=
      JWT [CUserId userId; CTokenType Refresh; CStatus s; CVerify v;
           CRole r; CIat (seconds (clock w));
           CExp (seconds (clock w) + JWT_REFRESH_TOKEN_EXPIRED_IN cfg)]
        (JWT_REFRESH_TOKEN_SECRET cfg) in
    let deleted :=
      with_refreshTokens (deleteRefreshToken old (refreshTokens w)) w in
    if seconds (clock w) + JWT_REFRESH_TOKEN_EXPIRED_IN cfg
       <=? seconds (clock w)
    then (Err TokenExpiredError, deleted)
    else
      (Ok (mkTokenPair
             (JWT [CUserId userId; CTokenType Access; CVerify v; CStatus s;
                   CRole r; CIat (seconds (clock w));
                   CExp (seconds (clock w)
                         + JWT_ACCESS_TOKEN_EXPIRED_IN cfg)]
                (JWT_ACCESS_TOKEN_SECRET cfg))
             new),
       with_refreshTokens
         (deleteRefreshToken old (refreshTokens w)
          ++ [mkRefreshToken new (Some (seconds (clock w)))
                (Some (seconds (clock w)
                       + JWT_REFRESH_TOKEN_EXPIRED_IN cfg))])
         w).
Proof.
  unfold UserService.refreshToken, bind, Promise_all.
  change (UserService.signAccessAndRefreshToken cfg userId v r s (Some 0))
    with (UserService.signAccessAndRefreshToken cfg userId v r s None).
  rewrite signAccessAndRefreshToken_fresh.
  unfold refreshTokens_deleteOne, UserService.decodeRefreshToken,
    verifyToken.
  world_simpl. cbn [jwt_verify claim_exp].
  rewrite secret_matches. cbv zeta.
  destruct (seconds (clock w) + JWT_REFRESH_TOKEN_EXPIRED_IN cfg
            <=? seconds (clock w)); reflexivity.
Qed.

(** C4 (amended).  What the three session-issuing operations leave in
    the refresh-token collection.  [register] and [login] write to it
    only as their last step: when they fail the collection is as before,
    when they succeed exactly the record of the returned refresh token
    is added.  [refreshToken] deletes the old record first: when it
    succeeds the record of the returned refresh token is added after the
    deletion, and when it fails the deletion stays and nothing is
    added. *)
Theorem session_state_after_issuing (w : World) :
  (forall data : RegisterReqBody,
      match run (UserService.register cfg hash data) w with
      | Ok s =>
          exists rec : RefreshToken,
            token rec = refreshToken s /\
            refreshTokens (exec (UserService.register cfg hash data) w)
            = refreshTokens w ++ [rec]
      | Err _ =>
          refreshTokens (exec (UserService.register cfg hash data) w)
          = refreshTokens w
      end) /\
  (forall u : User,
      match run (UserService.login cfg u) w with
      | Ok p =>
          exists rec : RefreshToken,
            token rec = pair_refreshToken p /\
            refreshTokens (exec (UserService.login cfg u) w)
            = refreshTokens w ++ [rec]
      | Err _ =>
          refreshTokens (exec (UserService.login cfg u) w) = refreshTokens w
      end) /\
  (forall (old : Token) (userId : string) (v : UserVerifyStatus)
          (s : UserStatus) (r : UserRole) (e : Z),
      match run (UserService.refreshToken cfg old userId v s r e) w with
      | Ok p =>
          exists rec : RefreshToken,
            token rec = pair_refreshToken p /\
            refreshTokens
              (exec (UserService.refreshToken cfg old userId v s r e) w)
            = deleteRefreshToken old (refreshTokens w) ++ [rec]
      | Err _ =>
          refreshTokens
            (exec (UserService.refreshToken cfg old userId v s r e) w)
          = deleteRefreshToken old (refreshTokens w)
      end).
Proof.
  split; [|split].
  - intros data.
    destruct (findUser (nextObjectId w) (users w)) as [u0|] eqn:Hid.
    + destruct (register_duplicate data w u0 Hid) as (Hrun & _ & Hrt).
      rewrite Hrun. exact Hrt.
    + unfold run, exec. rewrite (register_fresh data w Hid). cbv zeta.
      destruct (seconds (clock w) + JWT_REFRESH_TOKEN_EXPIRED_IN cfg
                <=? seconds (clock w)).
      * reflexivity.
      * cbn [fst snd]. eexists. split; [|reflexivity]. reflexivity.
  - intros u. unfold run, exec. rewrite login_unfold. cbv zeta.
    destruct (seconds (clock w) + JWT_REFRESH_TOKEN_EXPIRED_IN cfg
              <=? seconds (clock w)).
    + reflexivity.
    + cbn [fst snd]. eexists. split; [|reflexivity]. reflexivity.
  - intros old userId v s r e. unfold run, exec.
    destruct (Z.eq_dec e 0) as [->|He].
    + rewrite refreshToken_unfold_zero. cbv zeta.
      destruct (seconds (clock w) + JWT_REFRESH_TOKEN_EXPIRED_IN cfg
                <=? seconds (clock w)).
      * reflexivity.
      * cbn [fst snd]. eexists. split; [|reflexivity]. reflexivity.
    + rewrite refreshToken_unfold by exact He. cbv zeta.
      destruct (e <=? seconds (clock w)).
      * reflexivity.
      * cbn [fst snd]. eexists. split; [|reflexivity]. reflexivity.
Qed.

(** C5.  For every email and password, when the generated id is fresh
    and both configured durations are positive, [register] succeeds; it
    appends exactly one user, whose status is [Unverified], and exactly
    one refresh record, that of the returned refresh token; and both
    returned tokens verify under their secrets with role, account status
    and verification status equal to those of the stored user. *)
Theorem register_creates_user_and_session (data : RegisterReqBody)
    (w : World) :
  findUser (nextObjectId w) (users w) = None ->
  0 < JWT_ACCESS_TOKEN_EXPIRED_IN cfg ->
  0 < JWT_REFRESH_TOKEN_EXPIRED_IN cfg ->
  exists (s : Session) (u : User) (rec : RefreshToken),
    run (UserService.register cfg hash data) w = Ok s /\
    users (exec (UserService.register cfg hash data) w) = users w ++ [u] /\
    findUser (nextObjectId w)
      (users (exec (UserService.register cfg hash data) w)) = Some u /\
    email u = body_email data /\
    verify u = Unverified /\
    refreshTokens (exec (UserService.register cfg hash data) w)
    = refreshTokens w ++ [rec] /\
    token rec = refreshToken s /\
    (exists pa : TokenPayload,
        jwt_verify (accessToken s) (JWT_ACCESS_TOKEN_SECRET cfg) (clock w)
        = Ok pa /\
        claim_role pa = Some (role u) /\
        claim_status pa = Some (status u) /\
        claim_verify pa = Some (verify u)) /\
    (exists pr : TokenPayload,
        jwt_verify (refreshToken s) (JWT_REFRESH_TOKEN_SECRET cfg) (clock w)
        = Ok pr /\
        claim_role pr = Some (role u) /\
        claim_status pr = Some (status u) /\
        claim_verify pr = Some (verify u)).
Proof.
  intros Hfresh Ha Hr.
  unfold run, exec. rewrite (register_fresh data w Hfresh). cbv zeta.
  assert (Hleb :
    (seconds (clock w) + JWT_REFRESH_TOKEN_EXPIRED_IN cfg
     <=? seconds (clock w)) = false) by (apply Z.leb_gt; lia).
  assert (Hleb' :
    (seconds (clock w) + JWT_ACCESS_TOKEN_EXPIRED_IN cfg
     <=? seconds (clock w)) = false) by (apply Z.leb_gt; lia).
  rewrite Hleb. unfold afterInsert. world_simpl.
  eexists. eexists. eexists.
  split; [reflexivity|]. split; [reflexivity|].
  split; [apply findUser_app_fresh; [exact Hfresh|reflexivity]|].
  split; [reflexivity|]. split; [reflexivity|].
  split; [reflexivity|]. split; [reflexivity|].
  split.
  - cbn [accessToken jwt_verify claim_exp]. rewrite secret_matches, Hleb'.
    eexists. repeat split; reflexivity.
  - cbn [refreshToken jwt_verify claim_exp]. rewrite secret_matches, Hleb.
    eexists. repeat split; reflexivity.
Qed.

(** The user view of a successful [verifyEmail] or [resetPassword] is an
    [omit] of a user document. *)
Lemma verifyEmail_view (userId : string) (w : World) (s : Session) :
  run (UserService.verifyEmail cfg userId) w = Ok s ->
  exists u : User,
    user s
    = omit (User_doc u)
        [ "password"; "avatar"; "phoneNumber"; "verifyEmailToken";
          "forgotPasswordToken"; "addresses"; "status"; "role"; "verify" ].
Proof.
  unfold run, UserService.verifyEmail, bind, ObjectId_of,
    users_findOneAndUpdate.
  destruct (ObjectId_new userId) as [oid|err]; [|discriminate].
  destruct (findUser oid (users w)) as [u|]; [|discriminate].
  rewrite signAccessAndRefreshToken_fresh. cbn [fst ret].
  intros [= <-]. exists u. reflexivity.
Qed.

Lemma resetPassword_view (pw userId : string) (w : World) (s : Session) :
  run (UserService.resetPassword cfg hash pw userId) w = Ok s ->
  exists u : User,
    user s
    = omit (User_doc u)
        [ "password"; "avatar"; "phoneNumber"; "verifyEmailToken";
          "forgotPasswordToken"; "addresses"; "status"; "role"; "verify" ].
Proof.
  unfold run, UserService.resetPassword, bind, ObjectId_of,
    users_findOneAndUpdate.
  destruct (ObjectId_new userId) as [oid|err]; [|discriminate].
  destruct (findUser oid (users w)) as [u|]; [|discriminate].
  rewrite signAccessAndRefreshToken_fresh. cbn [fst ret].
  intros [= <-]. exists u. reflexivity.
Qed.

Lemma register_view (data : RegisterReqBody) (w : World) (s : Session) :
  run (UserService.register cfg hash data) w = Ok s ->
  exists u : User,
    user s
    = omit (User_doc u)
        [ "password"; "avatar"; "phoneNumber"; "verifyEmailToken";
          "forgotPasswordToken"; "addresses"; "status"; "role"; "verify" ].
Proof.
  destruct (findUser (nextObjectId w) (users w)) as [u0|] eqn:Hid.
  - destruct (register_duplicate data w u0 Hid) as (Hrun & _).
    rewrite Hrun. discriminate.
  - unfold run. rewrite (register_fresh data w Hid). cbv zeta.
    destruct (seconds (clock w) + JWT_REFRESH_TOKEN_EXPIRED_IN cfg
              <=? seconds (clock w)); [discriminate|].
    cbn [fst]. intros [= <-].
    exists (new_User (nextObjectId w) (body_email data)
              (hash (body_password data))
              (JWT [CUserId (ObjectId_toString (nextObjectId w));
                    CTokenType VerifyEmail; CIat (seconds (clock w));
                    CExp (seconds (clock w)
                          + JWT_VERIFY_EMAIL_TOKEN_EXPIRED_IN cfg)]
                 (JWT_VERIFY_EMAIL_TOKEN_SECRET cfg))
              (clock w)).
    reflexivity.
Qed.

Lemma omitted_view_sanitized (u : User) :
  sanitized
    (omit (User_doc u)
       [ "password"; "avatar"; "phoneNumber"; "verifyEmailToken";
         "forgotPasswordToken"; "addresses"; "status"; "role"; "verify" ]).
Proof. repeat split; apply field_omit; reflexivity. Qed.

(** C6.  For every successful [register], [verifyEmail] or
    [resetPassword] call, the user view in the result has no [password],
    no [verifyEmailToken] and no [forgotPasswordToken] key. *)
Theorem returned_user_view_is_sanitized (w : World) (s : Session) :
  (exists data : RegisterReqBody,
      run (UserService.register cfg hash data) w = Ok s) \/
  (exists userId : string,
      run (UserService.verifyEmail cfg userId) w = Ok s) \/
  (exists pw userId : string,
      run (UserService.resetPassword cfg hash pw userId) w = Ok s) ->
  sanitized (user s).
Proof.
  intros [[data H] | [[userId H] | (pw & userId & H)]].
  - destruct (register_view data w s H) as [u ->].
    apply omitted_view_sanitized.
  - destruct (verifyEmail_view userId w s H) as [u ->].
    apply omitted_view_sanitized.
  - destruct (resetPassword_view pw userId w s H) as [u ->].
    apply omitted_view_sanitized.
Qed.

(** C7 (amended).  When the store has no user for [userId], each
    operation that reads the user first ([resendEmailVerify],
    [verifyEmail], [resetPassword]) fails towards its caller, but not with
    a not-found or invalid-state error of the service's own: the read
    gives [null], the next use of it throws the runtime's [TypeError], and
    that is what the caller gets.  The operation does not go on with
    partial data: no mail is sent, no token is returned and the world
    (both collections included) is as before. *)
Theorem absent_user_is_a_failure (userId : string) (oid : ObjectId)
    (w : World) :
  ObjectId_new userId = Ok oid ->
  findUser oid (users w) = None ->
  UserService.resendEmailVerify cfg userId w = (Err TypeError, w) /\
  UserService.verifyEmail cfg userId w = (Err TypeError, w) /\
  (forall pw : string,
      UserService.resetPassword cfg hash pw userId w = (Err TypeError, w)).
Proof.
  intros Hid Habsent. split; [|split].
  - unfold UserService.resendEmailVerify, bind, Promise_all, ObjectId_of,
      users_findOne, UserService.signVerifyEmailToken, signToken.
    rewrite Hid, Habsent. reflexivity.
  - unfold UserService.verifyEmail, bind, ObjectId_of,
      users_findOneAndUpdate.
    rewrite Hid, Habsent, (updateUser_absent _ _ _ Habsent).
    unfold throw. now rewrite with_users_same.
  - intros pw.
    unfold UserService.resetPassword, bind, ObjectId_of,
      users_findOneAndUpdate.
    rewrite Hid, Habsent, (updateUser_absent _ _ _ Habsent).
    unfold throw. now rewrite with_users_same.
Qed.

(** C9.  For every [resetPassword] call on an existing user, the stored
    user afterwards is the one found with the password set to the new
    hash, [forgotPasswordToken] cleared and [createdAt] set to the
    current date; [updatedAt] and every other field are as before, the
    other users are untouched, and so are the refresh records and the
    outbox. *)
Theorem resetPassword_changes_only (pw userId : string) (oid : ObjectId)
    (u : User) (w : World) :
  ObjectId_new userId = Ok oid ->
  findUser oid (users w) = Some u ->
  let w' := exec (UserService.resetPassword cfg hash pw userId) w in
  findUser oid (users w')
  = Some {| _id := _id u;
            email := email u;
            password := hash pw;
            avatar := avatar u;
            phoneNumber := phoneNumber u;
            verifyEmailToken := verifyEmailToken u;
            forgotPasswordToken := Opaque "";
            addresses := addresses u;
            status := status u;
            role := role u;
            verify := verify u;
            createdAt := clock w;
            updatedAt := updatedAt u |} /\
  (forall other : ObjectId,
      other <> oid -> findUser other (users w') = findUser other (users w)) /\
  List.length (users w') = List.length (users w) /\
  refreshTokens w' = refreshTokens w /\
  outbox w' = outbox w.
Proof.
  intros Hid Hu w'. subst w'.
  unfold exec, UserService.resetPassword, bind, ObjectId_of,
    users_findOneAndUpdate.
  rewrite Hid, Hu. rewrite signAccessAndRefreshToken_fresh.
  world_simpl. cbn [ret snd]. world_simpl.
  split; [|split; [|split; [|split]]].
  - erewrite findUser_updateUser;
      [reflexivity | intros x; apply applyUpdate_id | exact Hu].
  - intros other Hne. apply findUser_updateUser_other; [|exact Hne].
    intros x. apply applyUpdate_id.
  - clear. induction (users w) as [|x l IH]; [reflexivity|].
    simpl. destruct (N.eqb (_id x) oid); simpl; [reflexivity|].
    now rewrite IH.
  - reflexivity.
  - reflexivity.
Qed.

End SessionProperties.

(** ** The login controller *)

Section ControllerProperties.

Variable cfg : Config.

(** C8.  For every successful login request, the response's data holds
    under [user] the whole user document that the request carries (the
    stored document the login validator attached), unsanitized: it still
    has the [password] (the stored hash), [verifyEmailToken] and
    [forgotPasswordToken] keys with their stored values. *)
Theorem loginController_returns_unsanitized_user (req : Request)
    (u : User) (resp : Response) (w : World) :
  req_user req = Some u ->
  run (loginController cfg req) w = Ok resp ->
  res_message resp = LOGIN_SUCCESS /\
  field "user" (res_data resp) = Some (VObject (User_doc u)) /\
  field "password" (User_doc u) = Some (VString (password u)) /\
  field "verifyEmailToken" (User_doc u)
  = Some (VToken (verifyEmailToken u)) /\
  field "forgotPasswordToken" (User_doc u)
  = Some (VToken (forgotPasswordToken u)) /\
  ~ sanitized (User_doc u).
Proof.
  intros Huser.
  unfold run, loginController, bind. rewrite Huser.
  destruct (UserService.login cfg u w) as [[p|err] w'];
    cbn [fst ret]; [|discriminate].
  intros [= <-]. cbn [res_message res_data].
  repeat split; try reflexivity.
  intros (Hpw & _). discriminate Hpw.
Qed.

End ControllerProperties.

(** ** The product-category id validator *)

(** C10.  For every request, with [value] the trimmed
    [productCategoryId] path parameter: an empty [value] is rejected with
    BadRequest (id required); a non-empty [value] that is no valid
    ObjectId is rejected with BadRequest (id invalid); a valid ObjectId
    with no stored category is rejected with NotFound; and the request
    passes on exactly when [value] is a valid ObjectId of a stored
    category.  The validator never changes the world. *)
Theorem productCategoryIdValidator_outcomes (req : Request) (w : World) :
  let value := trim (param "productCategoryId" (req_params req)) in
  (value = "" ->
   productCategoryIdValidator req w
   = (Err (ErrorWithStatus PRODUCT_CATEGORY_ID_IS_REQUIRED BadRequest), w)) /\
  (value <> "" ->
   ObjectId_isValid value = false ->
   productCategoryIdValidator req w
   = (Err (ErrorWithStatus PRODUCT_CATEGORY_ID_IS_INVALID BadRequest), w)) /\
  (forall oid : ObjectId,
      ObjectId_new value = Ok oid ->
      findProductCategory oid (productCategories w) = None ->
      productCategoryIdValidator req w
      = (Err (ErrorWithStatus PRODUCT_CATEGORY_NOT_FOUND NotFound), w)) /\
  (run (productCategoryIdValidator req) w = Ok tt <->
   exists (oid : ObjectId) (c : ProductCategory),
     ObjectId_new value = Ok oid /\
     findProductCategory oid (productCategories w) = Some c) /\
  exec (productCategoryIdValidator req) w = w.
Proof.
  intros value.
  unfold run, exec, productCategoryIdValidator, productCategoryId_custom.
  fold value. unfold bind.
  destruct (String.eqb value "") eqn:Eempty.
  - apply String.eqb_eq in Eempty.
    split; [reflexivity|]. split; [congruence|]. split.
    + intros oid Hoid. rewrite Eempty in Hoid. discriminate.
    + split; [|reflexivity]. split; [discriminate|].
      intros (oid & c & Hoid & _). rewrite Eempty in Hoid. discriminate.
  - apply String.eqb_neq in Eempty.
    split; [congruence|].
    unfold ObjectId_isValid, ObjectId_of, productCategories_findOne.
    destruct (ObjectId_new value) as [oid|err] eqn:Hnew; cbn [negb].
    + split; [discriminate|].
      destruct (findProductCategory oid (productCategories w)) as [c|] eqn:Hc.
      * split; [intros oid' [= <-]; congruence|].
        split; [|reflexivity]. split; [|reflexivity].
        intros _. exists oid, c. split; [reflexivity|exact Hc].
      * split; [reflexivity|]. split; [|reflexivity].
        split; [discriminate|].
        intros (oid' & c & [= <-] & Hc'). congruence.
    + split; [reflexivity|]. split; [discriminate|].
      split; [|reflexivity]. split; [discriminate|].
      intros (oid' & c & Hoid & _). discriminate.
Qed.

(** ** The theorems at concrete inputs *)

(** C1 at a failing input: the registered, still unverified user 7
    verifies her email.  The store then says [Verified], both returned
    tokens say [Unverified]. *)
Lemma verifyEmail_tokens_carry_old_status_witness :
  exists s : Session,
    run (UserService.verifyEmail exampleConfig hexId7) registeredWorld = Ok s /\
    (exists u' : User,
        findUser 7%N
          (users (exec (UserService.verifyEmail exampleConfig hexId7)
                    registeredWorld)) = Some u' /\
        verifyEmailToken u' = Opaque "" /\
        verify u' = Verified) /\
    token_verify (accessToken s) = Some Unverified /\
    token_verify (refreshToken s) = Some Unverified.
Proof.
  exact (verifyEmail_tokens_carry_old_status exampleConfig hexId7 7%N
           registeredUser registeredWorld eq_refl eq_refl).
Defined.

(** C3, the claim as stated fails: after [logout] of the registered
    refresh token the store has no record for it, and the service's
    [refreshToken] presented with it still succeeds; it does not fail with
    NotFound. *)
Lemma refreshToken_after_logout_counterexample :
  let w := exec (UserService.logout registeredRefreshToken) registeredWorld in
  let call :=
    UserService.refreshToken exampleConfig registeredRefreshToken hexId7
      Unverified Active Customer 1708640000 in
  findRefreshToken registeredRefreshToken (refreshTokens w) = None /\
  (exists p : TokenPair, run call w = Ok p) /\
  (forall m : Message, run call w <> Err (ErrorWithStatus m NotFound)).
Proof.
  cbv zeta. split; [reflexivity|]. split.
  - eexists. vm_compute. reflexivity.
  - intros m. vm_compute. discriminate.
Qed.

(** C3 (amended) at the same input. *)
Lemma logout_then_refreshToken_not_rejected_witness :
  (countRefreshToken registeredRefreshToken (refreshTokens registeredWorld)
   <= 1)%nat /\
  1708640000 <> 0 /\
  seconds (clock registeredWorld) < 1708640000 /\
  run (UserService.logout registeredRefreshToken) registeredWorld = Ok true /\
  findRefreshToken registeredRefreshToken
    (refreshTokens
       (exec (UserService.logout registeredRefreshToken) registeredWorld))
  = None /\
  exists p : TokenPair,
    run (UserService.refreshToken exampleConfig registeredRefreshToken hexId7
           Unverified Active Customer 1708640000)
      (exec (UserService.logout registeredRefreshToken) registeredWorld)
    = Ok p.
Proof.
  assert (Hc : (countRefreshToken registeredRefreshToken
                  (refreshTokens registeredWorld) <= 1)%nat)
    by (vm_compute; constructor).
  assert (H0 : 1708640000 <> 0) by discriminate.
  assert (H1 : seconds (clock registeredWorld) < 1708640000) by reflexivity.
  split; [exact Hc|]. split; [exact H0|]. split; [exact H1|].
  exact (logout_then_refreshToken_not_rejected exampleConfig
           registeredRefreshToken hexId7 Unverified Active Customer
           1708640000 registeredWorld Hc H0 H1).
Defined.

(** C4, the claim as stated fails: five seconds after the registered
    refresh token expired, rotating it fails when the new token (pinned to
    the same expiry) is decoded; the old record is already deleted and no
    new record is inserted. *)
Lemma refreshToken_failure_counterexample :
  let call :=
    UserService.refreshToken exampleConfig registeredRefreshToken hexId7
      Unverified Active Customer 1708640000 in
  refreshTokens lateWorld
  = [mkRefreshToken registeredRefreshToken (Some 1700000000)
       (Some 1708640000)] /\
  run call lateWorld = Err TokenExpiredError /\
  refreshTokens (exec call lateWorld) = [] /\
  refreshTokens (exec call lateWorld) <> refreshTokens lateWorld.
Proof.
  cbv zeta. split; [reflexivity|]. split; [reflexivity|].
  split; [reflexivity|]. vm_compute. discriminate.
Qed.

(** C5 at a concrete input: registering on the empty store. *)
Lemma register_creates_user_and_session_witness :
  findUser (nextObjectId emptyWorld) (users emptyWorld) = None /\
  0 < JWT_ACCESS_TOKEN_EXPIRED_IN exampleConfig /\
  0 < JWT_REFRESH_TOKEN_EXPIRED_IN exampleConfig /\
  exists (s : Session) (u : User) (rec : RefreshToken),
    run (UserService.register exampleConfig exampleHash
           (mkRegisterReqBody "a@x.com" "secret")) emptyWorld = Ok s /\
    users registeredWorld = users emptyWorld ++ [u] /\
    findUser 7%N (users registeredWorld) = Some u /\
    email u = "a@x.com" /\
    verify u = Unverified /\
    refreshTokens registeredWorld = refreshTokens emptyWorld ++ [rec] /\
    token rec = refreshToken s /\
    (exists pa : TokenPayload,
        jwt_verify (accessToken s) "access-secret" 1700000000500 = Ok pa /\
        claim_role pa = Some (role u) /\
        claim_status pa = Some (status u) /\
        claim_verify pa = Some (verify u)) /\
    (exists pr : TokenPayload,
        jwt_verify (refreshToken s) "refresh-secret" 1700000000500 = Ok pr /\
        claim_role pr = Some (role u) /\
        claim_status pr = Some (status u) /\
        claim_verify pr = Some (verify u)).
Proof.
  assert (Hf : findUser (nextObjectId emptyWorld) (users emptyWorld) = None)
    by reflexivity.
  assert (Ha : 0 < JWT_ACCESS_TOKEN_EXPIRED_IN exampleConfig) by reflexivity.
  assert (Hr : 0 < JWT_REFRESH_TOKEN_EXPIRED_IN exampleConfig) by reflexivity.
  split; [exact Hf|]. split; [exact Ha|]. split; [exact Hr|].
  exact (register_creates_user_and_session exampleConfig exampleHash
           (mkRegisterReqBody "a@x.com" "secret") emptyWorld Hf Ha Hr).
Defined.

(** C6 at a concrete input: the session that registration returned. *)
Lemma returned_user_view_is_sanitized_witness :
  (exists data : RegisterReqBody,
      run (UserService.register exampleConfig exampleHash data) emptyWorld
      = Ok registeredSession) /\
  sanitized (user registeredSession).
Proof.
  assert (H : exists data : RegisterReqBody,
             run (UserService.register exampleConfig exampleHash data)
               emptyWorld = Ok registeredSession)
    by (exists (mkRegisterReqBody "a@x.com" "secret"); reflexivity).
  split; [exact H|].
  apply (returned_user_view_is_sanitized exampleConfig exampleHash emptyWorld
           registeredSession).
  left. exact H.
Defined.

(** C7 at a concrete input: user 7 on the empty store. *)
Lemma absent_user_is_a_failure_witness :
  ObjectId_new hexId7 = Ok 7%N /\
  findUser 7%N (users emptyWorld) = None /\
  UserService.resendEmailVerify exampleConfig hexId7 emptyWorld
  = (Err TypeError, emptyWorld) /\
  UserService.verifyEmail exampleConfig hexId7 emptyWorld
  = (Err TypeError, emptyWorld) /\
  (forall pw : string,
      UserService.resetPassword exampleConfig exampleHash pw hexId7 emptyWorld
      = (Err TypeError, emptyWorld)).
Proof.
  assert (Hid : ObjectId_new hexId7 = Ok 7%N) by reflexivity.
  assert (Ha : findUser 7%N (users emptyWorld) = None) by reflexivity.
  split; [exact Hid|]. split; [exact Ha|].
  exact (absent_user_is_a_failure exampleConfig exampleHash hexId7 7%N
           emptyWorld Hid Ha).
Defined.

(** C8 at a concrete input: the login of the registered user. *)
Lemma loginController_returns_unsanitized_user_witness :
  req_user loginRequest = Some registeredUser /\
  run (loginController exampleConfig loginRequest) registeredWorld
  = Ok loginResponse /\
  field "user" (res_data loginResponse)
  = Some (VObject (User_doc registeredUser)) /\
  field "password" (User_doc registeredUser) = Some (VString "digest:secret").
Proof.
  assert (Hu : req_user loginRequest = Some registeredUser) by reflexivity.
  assert (Hr : run (loginController exampleConfig loginRequest) registeredWorld
               = Ok loginResponse) by reflexivity.
  split; [exact Hu|]. split; [exact Hr|].
  destruct (loginController_returns_unsanitized_user exampleConfig
              loginRequest registeredUser loginResponse registeredWorld Hu Hr)
    as (_ & Huser & Hpw & _).
  split; [exact Huser|exact Hpw].
Defined.

(** C9 at a concrete input: user 7 resets her password ten seconds after
    registration. *)
Lemma resetPassword_changes_only_witness :
  ObjectId_new hexId7 = Ok 7%N /\
  findUser 7%N (users registeredWorld) = Some registeredUser /\
  findUser 7%N
    (users (exec (UserService.resetPassword exampleConfig exampleHash
                    "new-secret" hexId7) registeredWorld))
  = Some {| _id := 7%N;
            email := "a@x.com";
            password := "digest:new-secret";
            avatar := "";
            phoneNumber := "";
            verifyEmailToken := verifyEmailToken registeredUser;
            forgotPasswordToken := Opaque "";
            addresses := [];
            status := Active;
            role := Customer;
            verify := Unverified;
            createdAt := clock registeredWorld;
            updatedAt := 1700000000500 |}.
Proof.
  assert (Hid : ObjectId_new hexId7 = Ok 7%N) by reflexivity.
  assert (Hu : findUser 7%N (users registeredWorld) = Some registeredUser)
    by reflexivity.
  split; [exact Hid|]. split; [exact Hu|].
  exact (proj1 (resetPassword_changes_only exampleConfig exampleHash
                  "new-secret" hexId7 7%N registeredUser registeredWorld
                  Hid Hu)).
Defined.

(** C10 at concrete inputs: a blank parameter, a parameter that is no id,
    the id of no category, the id of the stored category with spaces
    around it and with no-break spaces around it, and a parameter that is
    one no-break space. *)
Lemma productCategoryIdValidator_outcomes_witness :
  productCategoryIdValidator (categoryRequest "   ") categoryWorld
  = (Err (ErrorWithStatus PRODUCT_CATEGORY_ID_IS_REQUIRED BadRequest),
     categoryWorld) /\
  productCategoryIdValidator (categoryRequest "shoes") categoryWorld
  = (Err (ErrorWithStatus PRODUCT_CATEGORY_ID_IS_INVALID BadRequest),
     categoryWorld) /\
  productCategoryIdValidator (categoryRequest "00000000000000000000000b")
    categoryWorld
  = (Err (ErrorWithStatus PRODUCT_CATEGORY_NOT_FOUND NotFound),
     categoryWorld) /\
  run (productCategoryIdValidator
         (categoryRequest " 00000000000000000000000A "))
    categoryWorld = Ok tt /\
  run (productCategoryIdValidator
         (categoryRequest (nbsp ++ "00000000000000000000000a" ++ nbsp)%string))
    categoryWorld = Ok tt /\
  productCategoryIdValidator (categoryRequest nbsp) categoryWorld
  = (Err (ErrorWithStatus PRODUCT_CATEGORY_ID_IS_REQUIRED BadRequest),
     categoryWorld).
Proof.
  split; [|split; [|split; [|split; [|split]]]].
  - apply (proj1 (productCategoryIdValidator_outcomes
                    (categoryRequest "   ") categoryWorld)).
    reflexivity.
  - apply (proj1 (proj2 (productCategoryIdValidator_outcomes
                           (categoryRequest "shoes") categoryWorld)));
      [discriminate|reflexivity].
  - apply (proj1 (proj2 (proj2 (productCategoryIdValidator_outcomes
                                  (categoryRequest "00000000000000000000000b")
                                  categoryWorld))) 11%N);
      reflexivity.
  - apply (proj1 (proj2 (proj2 (proj2 (productCategoryIdValidator_outcomes
                                  (categoryRequest " 00000000000000000000000A ")
                                  categoryWorld))))).
    eexists. eexists. split; reflexivity.
  - apply (proj1 (proj2 (proj2 (proj2
             (productCategoryIdValidator_outcomes
                (categoryRequest
                   (nbsp ++ "00000000000000000000000a" ++ nbsp)%string)
                categoryWorld))))).
    eexists. eexists. split; reflexivity.
  - apply (proj1 (productCategoryIdValidator_outcomes
                    (categoryRequest nbsp) categoryWorld)).
    reflexivity.
Defined.

(** ** Further properties of the embedded code *)

(** *** ObjectId strings *)

Lemma hexDigit_hexChar (d : N) : (d < 16)%N -> hexDigit (hexChar d) = Some d.
Proof.
  intros Hd.
  assert (H : (d = 0 \/ d = 1 \/ d = 2 \/ d = 3 \/ d = 4 \/ d = 5 \/ d = 6
               \/ d = 7 \/ d = 8 \/ d = 9 \/ d = 10 \/ d = 11 \/ d = 12
               \/ d = 13 \/ d = 14 \/ d = 15)%N) by lia.
  repeat (destruct H as [-> | H]; [reflexivity|]).
  subst d. reflexivity.
Qed.

Lemma toHex_length (k : nat) (n : N) (acc : string) :
  String.length (toHex k n acc) = (k + String.length acc)%nat.
Proof.
  revert n acc. induction k as [|k IH]; intros n acc; simpl; [reflexivity|].
  rewrite IH. simpl. lia.
Qed.

Lemma parseHex_toHex (k : nat) (n : N) (acc : string) (a : N) :
  parseHex (toHex k n acc) a
  = parseHex acc (a * 16 ^ N.of_nat k + n mod 16 ^ N.of_nat k)%N.
Proof.
  revert n acc a. induction k as [|k IH]; intros n acc a.
  - simpl. rewrite N.mod_1_r. f_equal. lia.
  - cbn [toHex]. rewrite IH. cbn [parseHex].
    rewrite hexDigit_hexChar by (apply N.mod_lt; discriminate).
    f_equal.
    rewrite Nat2N.inj_succ, N.pow_succ_r'.
    rewrite (N.Div0.mod_mul_r n 16 (16 ^ N.of_nat k)). lia.
Qed.

Lemma ObjectId_new_toString (o : ObjectId) :
  ObjectId_new (ObjectId_toString o) = Ok (o mod 2 ^ 96)%N.
Proof.
  unfold ObjectId_new, ObjectId_toString.
  rewrite toHex_length. cbn [String.length Nat.add Nat.eqb].
  rewrite parseHex_toHex. cbn [parseHex]. f_equal.
Qed.

Lemma ObjectId_toString_new (o : ObjectId) :
  (o < 2 ^ 96)%N -> ObjectId_new (ObjectId_toString o) = Ok o.
Proof.
  intros Hlt. rewrite ObjectId_new_toString. now rewrite N.mod_small.
Qed.

(** X1.  The string form of an id is always accepted by [new ObjectId]
    and by [ObjectId.isValid], and reads back as the id modulo 2^96: the
    twelve bytes round-trip. *)
Theorem ObjectId_toString_roundtrip (o : ObjectId) :
  ObjectId_new (ObjectId_toString o) = Ok (o mod 2 ^ 96)%N /\
  ObjectId_isValid (ObjectId_toString o) = true /\
  ((o < 2 ^ 96)%N -> ObjectId_new (ObjectId_toString o) = Ok o).
Proof.
  split; [apply ObjectId_new_toString|]. split.
  - unfold ObjectId_isValid. now rewrite ObjectId_new_toString.
  - apply ObjectId_toString_new.
Qed.

(** *** Collections *)

Lemma map_id_updateUser (id : ObjectId) (f : User -> User) (l : list User) :
  (forall x, _id (f x) = _id x) ->
  List.map _id (updateUser id f l) = List.map _id l.
Proof.
  intros Hf. induction l as [|x l IH]; simpl; [reflexivity|].
  destruct (N.eqb (_id x) id); simpl; [now rewrite Hf|now rewrite IH].
Qed.

Lemma findUser_None_not_In (id : ObjectId) (l : list User) :
  findUser id l = None -> ~ List.In id (List.map _id l).
Proof.
  induction l as [|x l IH]; simpl; [tauto|].
  destruct (N.eqb (_id x) id) eqn:E; [discriminate|].
  apply N.eqb_neq in E. intros H [Hx|Hin]; [congruence|now apply IH].
Qed.

Lemma updateUser_idempotent (id : ObjectId) (f : User -> User)
    (l : list User) :
  (forall x, _id (f x) = _id x) ->
  (forall x, f (f x) = f x) ->
  updateUser id f (updateUser id f l) = updateUser id f l.
Proof.
  intros Hid Hf. induction l as [|x l IH]; simpl; [reflexivity|].
  destruct (N.eqb (_id x) id) eqn:E; simpl.
  - now rewrite Hid, E, Hf.
  - now rewrite E, IH.
Qed.

Lemma findRefreshToken_delete_other (t t' : Token) (l : list RefreshToken) :
  t' <> t ->
  findRefreshToken t' (deleteRefreshToken t l) = findRefreshToken t' l.
Proof.
  intros Hne. induction l as [|r l IH]; simpl; [reflexivity|].
  destruct (bool_decide (token r = t)) eqn:E.
  - apply bool_decide_eq_true in E.
    rewrite bool_decide_eq_false_2 by congruence. reflexivity.
  - simpl. destruct (bool_decide (token r = t')); [reflexivity|exact IH].
Qed.

Lemma deleteRefreshToken_absent (t : Token) (l : list RefreshToken) :
  findRefreshToken t l = None -> deleteRefreshToken t l = l.
Proof.
  induction l as [|r l IH]; simpl; [reflexivity|].
  destruct (bool_decide (token r = t)); [discriminate|].
  intros H. now rewrite IH.
Qed.

Lemma deleteRefreshToken_app_last (t : Token) (l : list RefreshToken)
    (r : RefreshToken) :
  findRefreshToken t l = None -> token r = t ->
  deleteRefreshToken t (l ++ [r]) = l.
Proof.
  intros Habsent Hr. induction l as [|x l IH]; simpl in *.
  - now rewrite bool_decide_eq_true_2.
  - destruct (bool_decide (token x = t)); [discriminate|].
    now rewrite IH.
Qed.

Lemma findRefreshToken_app_last (t : Token) (l : list RefreshToken)
    (r : RefreshToken) :
  token r = t -> findRefreshToken t (l ++ [r]) <> None.
Proof.
  intros Hr. induction l as [|x l IH]; simpl.
  - now rewrite bool_decide_eq_true_2.
  - destruct (bool_decide (token x = t)); [discriminate|exact IH].
Qed.

Lemma findRefreshToken_app_other (t : Token) (l : list RefreshToken)
    (r : RefreshToken) :
  token r <> t -> findRefreshToken t (l ++ [r]) = findRefreshToken t l.
Proof.
  intros Hr. induction l as [|x l IH]; simpl.
  - now rewrite bool_decide_eq_false_2.
  - destruct (bool_decide (token x = t)); [reflexivity|exact IH].
Qed.



Lemma Forall_deleteRefreshToken (P : RefreshToken -> Prop) (t : Token)
    (l : list RefreshToken) :
  List.Forall P l -> List.Forall P (deleteRefreshToken t l).
Proof.
  induction 1 as [|r l Hr Hl IH]; simpl; [constructor|].
  destruct (bool_decide (token r = t)); [exact Hl|now constructor].
Qed.

Lemma allSpace_ltrim (n : nat) (s : string) :
  (String.length s <= n)%nat -> allSpace s = true -> ltrim s = "".
Proof.
  revert s. induction n as [|n IH]; intros s Hlen.
  - destruct s; [reflexivity|]. simpl in Hlen. lia.
  - destruct s as [|a s1]; [reflexivity|].
    cbn [allSpace ltrim]. simpl in Hlen.
    destruct (isSpace a); [apply IH; lia|].
    destruct s1 as [|b s2]; [discriminate|]. simpl in Hlen.
    destruct (isSpace2 a b); [apply IH; lia|].
    destruct s2 as [|c s3]; [discriminate|]. simpl in Hlen.
    destruct (isSpace3 a b c); [apply IH; lia|discriminate].
Qed.

Lemma allSpace_trim (s : string) : allSpace s = true -> trim s = "".
Proof.
  intros H. unfold trim.
  now rewrite (allSpace_ltrim (String.length s) s (le_n _) H).
Qed.

(** *** The service, operation by operation *)

Section FurtherProperties.

Variable cfg : Config.
Variable hash : string -> string.



Lemma with_refreshTokens_same (w : World) :
  with_refreshTokens (refreshTokens w) w = w.
Proof. destruct w; reflexivity. Qed.

(** [verifyEmail] as one equation. *)
Lemma verifyEmail_unfold (userId : string) (w : World) :
  UserService.verifyEmail cfg userId w
  = match ObjectId_new userId with
    | Err e => (Err e, w)
    | Ok oid =>
        let w' :=
          with_users
            (updateUser oid
               (applyUpdate (clock w)
                  {| dollar_set :=
                       [set_verifyEmailToken (Opaque ""); set_verify Verified];
                     dollar_currentDate := [date_updatedAt] |})
               (users w)) w in
        match findUser oid (users w) with
        | None => (Err TypeError, w')
        | Some u =>
            (Ok (mkSession
                   (issuedAccessToken cfg (ObjectId_toString (_id u))
                      (verify u) (status u) (role u) w)
                   (issuedRefreshToken cfg (ObjectId_toString (_id u))
                      (verify u) (status u) (role u) w)
                   (omit (User_doc u)
                      [ "password"; "avatar"; "phoneNumber";
                        "verifyEmailToken"; "forgotPasswordToken";
                        "addresses"; "status"; "role"; "verify" ])),
             w')
        end
    end.
Proof.
  unfold UserService.verifyEmail, bind, ObjectId_of, users_findOneAndUpdate.
  destruct (ObjectId_new userId) as [oid|e]; [|reflexivity].
  destruct (findUser oid (users w)) as [u|]; [|reflexivity].
  rewrite signAccessAndRefreshToken_fresh. reflexivity.
Qed.

(** [resetPassword] as one equation. *)
Lemma resetPassword_unfold (pw userId : string) (w : World) :
  UserService.resetPassword cfg hash pw userId w
  = match ObjectId_new userId with
    | Err e => (Err e, w)
    | Ok oid =>
        let w' :=
          with_users
            (updateUser oid
               (applyUpdate (clock w)
                  {| dollar_set :=
                       [set_password (hash pw);
                        set_forgotPasswordToken (Opaque "")];
                     dollar_currentDate := [date_createdAt] |})
               (users w)) w in
        match findUser oid (users w) with
        | None => (Err TypeError, w')
        | Some u =>
            (Ok (mkSession
                   (issuedAccessToken cfg (ObjectId_toString (_id u))
                      (verify u) (status u) (role u) w)
                   (issuedRefreshToken cfg (ObjectId_toString (_id u))
                      (verify u) (status u) (role u) w)
                   (omit (User_doc u)
                      [ "password"; "avatar"; "phoneNumber";
                        "verifyEmailToken"; "forgotPasswordToken";
                        "addresses"; "status"; "role"; "verify" ])),
             w')
        end
    end.
Proof.
  unfold UserService.resetPassword, bind, ObjectId_of, users_findOneAndUpdate.
  destruct (ObjectId_new userId) as [oid|e]; [|reflexivity].
  destruct (findUser oid (users w)) as [u|]; [|reflexivity].
  rewrite signAccessAndRefreshToken_fresh. reflexivity.
Qed.

(** [forgotPassword] as one equation: the mail is handed over before the
    id string is parsed. *)
Lemma forgotPassword_unfold (userId email_ : string) (w : World) :
  UserService.forgotPassword cfg userId email_ w
  = let mailed :=
      with_outbox
        (outbox w
         ++ [ForgotPasswordMail email_
               (issuedForgotPasswordToken cfg userId w)]) w in
    match ObjectId_new userId with
    | Err e => (Err e, mailed)
    | Ok oid =>
        (Ok tt,
         with_users
           (updateUser oid
              (applyUpdate (clock w)
                 {| dollar_set :=
                      [set_forgotPasswordToken
                         (issuedForgotPasswordToken cfg userId w)];
                    dollar_currentDate := [date_updatedAt] |})
              (users w)) mailed)
    end.
Proof.
  unfold UserService.forgotPassword, bind, Promise_all, ObjectId_of,
    UserService.signForgotPasswordToken, signToken, sendForgotPasswordEmail,
    users_updateOne.
  cbn [jwt_sign claim_iat claim_exp app]. world_simpl.
  destruct (ObjectId_new userId) as [oid|e]; reflexivity.
Qed.

(** [resendEmailVerify] as one equation. *)
Lemma resendEmailVerify_unfold (userId : string) (w : World) :
  UserService.resendEmailVerify cfg userId w
  = match ObjectId_new userId with
    | Err e => (Err e, w)
    | Ok oid =>
        match findUser oid (users w) with
        | None => (Err TypeError, w)
        | Some u =>
            (Ok true,
             with_users
               (updateUser oid
                  (applyUpdate (clock w)
                     {| dollar_set :=
                          [set_verifyEmailToken
                             (issuedVerifyEmailToken cfg userId w)];
                        dollar_currentDate := [date_updatedAt] |})
                  (users w))
               (with_outbox
                  (outbox w
                   ++ [VerifyEmailMail (email u)
                         (issuedVerifyEmailToken cfg userId w)]) w))
        end
    end.
Proof.
  unfold UserService.resendEmailVerify, bind, Promise_all, ObjectId_of,
    UserService.signVerifyEmailToken, signToken, sendVerifyEmail,
    users_updateOne, users_findOne.
  cbn [jwt_sign claim_iat claim_exp app]. world_simpl.
  destruct (ObjectId_new userId) as [oid|e]; [|reflexivity].
  destruct (findUser oid (users w)) as [u|]; [|reflexivity].
  world_simpl. reflexivity.
Qed.

Lemma login_positive (u : User) (w : World) :
  0 < JWT_REFRESH_TOKEN_EXPIRED_IN cfg ->
  UserService.login cfg u w
  = (Ok (mkTokenPair
           (issuedAccessToken cfg (ObjectId_toString (_id u)) (verify u)
              (status u) (role u) w)
           (issuedRefreshToken cfg (ObjectId_toString (_id u)) (verify u)
              (status u) (role u) w)),
     with_refreshTokens
       (refreshTokens w
        ++ [mkRefreshToken
              (issuedRefreshToken cfg (ObjectId_toString (_id u)) (verify u)
                 (status u) (role u) w)
              (Some (seconds (clock w)))
              (Some (seconds (clock w) + JWT_REFRESH_TOKEN_EXPIRED_IN cfg))])
       w).
Proof.
  intros Hr. rewrite login_unfold. cbv zeta.
  assert (Hleb :
    (seconds (clock w) + JWT_REFRESH_TOKEN_EXPIRED_IN cfg
     <=? seconds (clock w)) = false) by (apply Z.leb_gt; lia).
  now rewrite Hleb.
Qed.

(** X2.  With positive access and refresh durations, [login(user)]
    succeeds for every user document.  Both tokens verify under their own
    secret with the user's id string, verification status, account status
    and role, the token type of their class and an expiry of the clock
    plus the configured duration.  The only change to the world is one
    refresh record appended, holding the returned refresh token with its
    issued-at and expiry; users and mails are untouched. *)
Theorem login_issues_session (u : User) (w : World) :
  0 < JWT_ACCESS_TOKEN_EXPIRED_IN cfg ->
  0 < JWT_REFRESH_TOKEN_EXPIRED_IN cfg ->
  exists p : TokenPair,
    UserService.login cfg u w
    = (Ok p,
       with_refreshTokens
         (refreshTokens w
          ++ [mkRefreshToken (pair_refreshToken p)
                (Some (seconds (clock w)))
                (Some (seconds (clock w)
                       + JWT_REFRESH_TOKEN_EXPIRED_IN cfg))])
         w) /\
    (exists pa : TokenPayload,
        jwt_verify (pair_accessToken p) (JWT_ACCESS_TOKEN_SECRET cfg)
          (clock w) = Ok pa /\
        claim_userId pa = Some (ObjectId_toString (_id u)) /\
        claim_tokenType pa = Some Access /\
        claim_verify pa = Some (verify u) /\
        claim_status pa = Some (status u) /\
        claim_role pa = Some (role u) /\
        claim_exp pa
        = Some (seconds (clock w) + JWT_ACCESS_TOKEN_EXPIRED_IN cfg)) /\
    (exists pr : TokenPayload,
        jwt_verify (pair_refreshToken p) (JWT_REFRESH_TOKEN_SECRET cfg)
          (clock w) = Ok pr /\
        claim_userId pr = Some (ObjectId_toString (_id u)) /\
        claim_tokenType pr = Some Refresh /\
        claim_verify pr = Some (verify u) /\
        claim_status pr = Some (status u) /\
        claim_role pr = Some (role u) /\
        claim_exp pr
        = Some (seconds (clock w) + JWT_REFRESH_TOKEN_EXPIRED_IN cfg)).
Proof.
  intros Ha Hr. rewrite (login_positive u w Hr).
  eexists (mkTokenPair _ _). split; [reflexivity|].
  unfold issuedAccessToken, issuedRefreshToken.
  cbn [pair_accessToken pair_refreshToken jwt_verify claim_exp].
  rewrite !secret_matches.
  assert (Hla :
    (seconds (clock w) + JWT_ACCESS_TOKEN_EXPIRED_IN cfg
     <=? seconds (clock w)) = false) by (apply Z.leb_gt; lia).
  assert (Hlr :
    (seconds (clock w) + JWT_REFRESH_TOKEN_EXPIRED_IN cfg
     <=? seconds (clock w)) = false) by (apply Z.leb_gt; lia).
  rewrite Hla, Hlr.
  split; eexists; repeat split; reflexivity.
Qed.


(** X4.  [logout(t)] leaves the records of every other token as they
    are: a lookup of another token gives the same record before and
    after, and users and mails are untouched. *)
Theorem logout_leaves_other_tokens (t t' : Token) (w : World) :
  t' <> t ->
  findRefreshToken t' (refreshTokens (exec (UserService.logout t) w))
  = findRefreshToken t' (refreshTokens w) /\
  users (exec (UserService.logout t) w) = users w /\
  outbox (exec (UserService.logout t) w) = outbox w.
Proof.
  intros Hne. unfold exec, UserService.logout, bind, refreshTokens_deleteOne.
  cbn [fst snd ret]. world_simpl.
  split; [now apply findRefreshToken_delete_other|]. split; reflexivity.
Qed.

(** X5.  [logout] of a token the store does not record still succeeds
    and changes nothing at all. *)
Theorem logout_unknown_token_is_noop (t : Token) (w : World) :
  findRefreshToken t (refreshTokens w) = None ->
  UserService.logout t w = (Ok true, w).
Proof.
  intros Habsent. unfold UserService.logout, bind, refreshTokens_deleteOne.
  cbn [ret]. rewrite (deleteRefreshToken_absent _ _ Habsent).
  now rewrite with_refreshTokens_same.
Qed.

(** X6.  When the refresh token that [login] is about to issue is not
    yet recorded, [login] followed by [logout] of the returned refresh
    token gives back exactly the world before the login. *)
Theorem login_then_logout_restores (u : User) (w : World) :
  0 < JWT_REFRESH_TOKEN_EXPIRED_IN cfg ->
  findRefreshToken
    (issuedRefreshToken cfg (ObjectId_toString (_id u)) (verify u)
       (status u) (role u) w) (refreshTokens w) = None ->
  exists p : TokenPair,
    run (UserService.login cfg u) w = Ok p /\
    pair_refreshToken p
    = issuedRefreshToken cfg (ObjectId_toString (_id u)) (verify u)
        (status u) (role u) w /\
    exec (UserService.logout (pair_refreshToken p))
      (exec (UserService.login cfg u) w) = w.
Proof.
  intros Hr Habsent. unfold run, exec.
  rewrite (login_positive u w Hr). cbn [fst snd].
  eexists. split; [reflexivity|]. split; [reflexivity|].
  cbn [pair_refreshToken].
  unfold UserService.logout, bind, refreshTokens_deleteOne.
  cbn [fst snd ret]. world_simpl.
  rewrite (deleteRefreshToken_app_last _ _ _ Habsent) by reflexivity.
  destruct w; reflexivity.
Qed.

(** X7.  [forgotPassword(userId, email)] for a stored user succeeds.  One
    forgot-password token is signed for the given id string; the same
    token is mailed to the given address and written to the user's
    [forgotPasswordToken], together with a new [updatedAt]; every other
    field of the user, the other users and the refresh records stay as
    they are. *)
Theorem forgotPassword_stores_mailed_token (userId email_ : string)
    (oid : ObjectId) (u : User) (w : World) :
  ObjectId_new userId = Ok oid ->
  findUser oid (users w) = Some u ->
  let tok := issuedForgotPasswordToken cfg userId w in
  let w' := exec (UserService.forgotPassword cfg userId email_) w in
  run (UserService.forgotPassword cfg userId email_) w = Ok tt /\
  outbox w' = outbox w ++ [ForgotPasswordMail email_ tok] /\
  findUser oid (users w')
  = Some {| _id := _id u;
            email := email u;
            password := password u;
            avatar := avatar u;
            phoneNumber := phoneNumber u;
            verifyEmailToken := verifyEmailToken u;
            forgotPasswordToken := tok;
            addresses := addresses u;
            status := status u;
            role := role u;
            verify := verify u;
            createdAt := createdAt u;
            updatedAt := clock w |} /\
  (forall other : ObjectId,
      other <> oid -> findUser other (users w') = findUser other (users w)) /\
  refreshTokens w' = refreshTokens w.
Proof.
  intros Hid Hu tok w'. subst tok w'. unfold run, exec.
  rewrite forgotPassword_unfold, Hid. cbv zeta. cbn [fst snd]. world_simpl.
  split; [reflexivity|]. split; [reflexivity|]. split; [|split].
  - erewrite findUser_updateUser;
      [reflexivity | intros x; apply applyUpdate_id | exact Hu].
  - intros other Hne. apply findUser_updateUser_other; [|exact Hne].
    intros x. apply applyUpdate_id.
  - reflexivity.
Qed.

(** X8.  [forgotPassword] does not look the user up: for a well-formed id
    with no stored user it still succeeds and still sends the mail with a
    freshly signed token, while the users collection stays as it is. *)
Theorem forgotPassword_unknown_user_still_mails (userId email_ : string)
    (oid : ObjectId) (w : World) :
  ObjectId_new userId = Ok oid ->
  findUser oid (users w) = None ->
  UserService.forgotPassword cfg userId email_ w
  = (Ok tt,
     with_outbox
       (outbox w
        ++ [ForgotPasswordMail email_ (issuedForgotPasswordToken cfg userId w)])
       w).
Proof.
  intros Hid Habsent.
  rewrite forgotPassword_unfold, Hid. cbv zeta. world_simpl.
  rewrite (updateUser_absent _ _ _ Habsent). reflexivity.
Qed.

(** X9.  [resendEmailVerify(userId)] for a stored user succeeds.  One
    verify-email token is signed for the given id string; the same token
    is mailed to the user's stored address and replaces the stored
    [verifyEmailToken], together with a new [updatedAt]; the verification
    status and every other field stay as they are, and no refresh record
    is touched. *)
Theorem resendEmailVerify_overwrites_token (userId : string) (oid : ObjectId)
    (u : User) (w : World) :
  ObjectId_new userId = Ok oid ->
  findUser oid (users w) = Some u ->
  let tok := issuedVerifyEmailToken cfg userId w in
  let w' := exec (UserService.resendEmailVerify cfg userId) w in
  run (UserService.resendEmailVerify cfg userId) w = Ok true /\
  outbox w' = outbox w ++ [VerifyEmailMail (email u) tok] /\
  findUser oid (users w')
  = Some {| _id := _id u;
            email := email u;
            password := password u;
            avatar := avatar u;
            phoneNumber := phoneNumber u;
            verifyEmailToken := tok;
            forgotPasswordToken := forgotPasswordToken u;
            addresses := addresses u;
            status := status u;
            role := role u;
            verify := verify u;
            createdAt := createdAt u;
            updatedAt := clock w |} /\
  refreshTokens w' = refreshTokens w.
Proof.
  intros Hid Hu tok w'. subst tok w'. unfold run, exec.
  rewrite resendEmailVerify_unfold, Hid, Hu. cbn [fst snd]. world_simpl.
  split; [reflexivity|]. split; [reflexivity|]. split; [|reflexivity].
  erewrite findUser_updateUser;
    [reflexivity | intros x; apply applyUpdate_id | exact Hu].
Qed.

Lemma verifyEmail_refreshTokens (userId : string) (w : World) :
  refreshTokens (exec (UserService.verifyEmail cfg userId) w) = refreshTokens w
  /\ outbox (exec (UserService.verifyEmail cfg userId) w) = outbox w.
Proof.
  unfold exec. rewrite verifyEmail_unfold.
  destruct (ObjectId_new userId) as [oid|e]; [|split; reflexivity].
  cbv zeta. destruct (findUser oid (users w)); split; reflexivity.
Qed.

Lemma resetPassword_refreshTokens (pw userId : string) (w : World) :
  refreshTokens (exec (UserService.resetPassword cfg hash pw userId) w)
  = refreshTokens w
  /\ outbox (exec (UserService.resetPassword cfg hash pw userId) w) = outbox w.
Proof.
  unfold exec. rewrite resetPassword_unfold.
  destruct (ObjectId_new userId) as [oid|e]; [|split; reflexivity].
  cbv zeta. destruct (findUser oid (users w)); split; reflexivity.
Qed.

(** X10.  [verifyEmail] and [resetPassword] return a refresh token but
    never write a refresh record: whatever the input and the outcome, the
    refresh-token collection and the outbox are as before, so the returned
    refresh token is found in the store only if it was recorded already. *)
Theorem verifyEmail_resetPassword_persist_no_record (w : World) :
  (forall userId : string,
      refreshTokens (exec (UserService.verifyEmail cfg userId) w)
      = refreshTokens w /\
      outbox (exec (UserService.verifyEmail cfg userId) w) = outbox w /\
      forall s : Session,
        run (UserService.verifyEmail cfg userId) w = Ok s ->
        findRefreshToken (refreshToken s)
          (refreshTokens (exec (UserService.verifyEmail cfg userId) w))
        = findRefreshToken (refreshToken s) (refreshTokens w)) /\
  (forall pw userId : string,
      refreshTokens (exec (UserService.resetPassword cfg hash pw userId) w)
      = refreshTokens w /\
      outbox (exec (UserService.resetPassword cfg hash pw userId) w)
      = outbox w /\
      forall s : Session,
        run (UserService.resetPassword cfg hash pw userId) w = Ok s ->
        findRefreshToken (refreshToken s)
          (refreshTokens
             (exec (UserService.resetPassword cfg hash pw userId) w))
        = findRefreshToken (refreshToken s) (refreshTokens w)).
Proof.
  split.
  - intros userId.
    destruct (verifyEmail_refreshTokens userId w) as [Hr Ho].
    split; [exact Hr|]. split; [exact Ho|]. intros s _. now rewrite Hr.
  - intros pw userId.
    destruct (resetPassword_refreshTokens pw userId w) as [Hr Ho].
    split; [exact Hr|]. split; [exact Ho|]. intros s _. now rewrite Hr.
Qed.

Lemma verifyEmail_update_idempotent (now : Z) (x : User) :
  applyUpdate now
    {| dollar_set := [set_verifyEmailToken (Opaque ""); set_verify Verified];
       dollar_currentDate := [date_updatedAt] |}
    (applyUpdate now
       {| dollar_set := [set_verifyEmailToken (Opaque ""); set_verify Verified];
          dollar_currentDate := [date_updatedAt] |} x)
  = applyUpdate now
      {| dollar_set := [set_verifyEmailToken (Opaque ""); set_verify Verified];
         dollar_currentDate := [date_updatedAt] |} x.
Proof. reflexivity. Qed.

(** X11.  Verifying twice is idempotent in the end state: for a stored
    user, a second [verifyEmail] at the same clock succeeds and leaves the
    world exactly as the first one left it; and the tokens of the second
    call carry [Verified]. *)
Theorem verifyEmail_twice (userId : string) (oid : ObjectId) (u : User)
    (w : World) :
  ObjectId_new userId = Ok oid ->
  findUser oid (users w) = Some u ->
  let w1 := exec (UserService.verifyEmail cfg userId) w in
  exec (UserService.verifyEmail cfg userId) w1 = w1 /\
  exists s2 : Session,
    run (UserService.verifyEmail cfg userId) w1 = Ok s2 /\
    token_verify (accessToken s2) = Some Verified /\
    token_verify (refreshToken s2) = Some Verified.
Proof.
  intros Hid Hu w1. subst w1. unfold run, exec.
  rewrite !verifyEmail_unfold, Hid, Hu. cbv zeta. cbn [fst snd]. world_simpl.
  erewrite findUser_updateUser;
    [| intros x; apply applyUpdate_id | exact Hu].
  cbn [fst snd]. split.
  - unfold with_users. world_simpl. f_equal.
    apply updateUser_idempotent.
    + intros x. apply applyUpdate_id.
    + intros x. apply verifyEmail_update_idempotent.
  - eexists. split; [reflexivity|]. split; reflexivity.
Qed.

(** X12.  An id string that [new ObjectId] refuses makes
    [resendEmailVerify], [verifyEmail] and [resetPassword] fail with that
    error before anything is read, written or mailed.  [forgotPassword]
    fails with it too, but only after the forgot-password mail has been
    handed over: the mail call is the first element of its [Promise.all]
    array and the id is parsed while the second is built. *)
Theorem malformed_userId_outcomes (userId : string) (e : Error) (w : World) :
  ObjectId_new userId = Err e ->
  UserService.resendEmailVerify cfg userId w = (Err e, w) /\
  UserService.verifyEmail cfg userId w = (Err e, w) /\
  (forall pw : string,
      UserService.resetPassword cfg hash pw userId w = (Err e, w)) /\
  (forall email_ : string,
      UserService.forgotPassword cfg userId email_ w
      = (Err e,
         with_outbox
           (outbox w
            ++ [ForgotPasswordMail email_
                  (issuedForgotPasswordToken cfg userId w)])
           w)).
Proof.
  intros Hid. split; [|split; [|split]].
  - now rewrite resendEmailVerify_unfold, Hid.
  - now rewrite verifyEmail_unfold, Hid.
  - intros pw. now rewrite resetPassword_unfold, Hid.
  - intros email_. now rewrite forgotPassword_unfold, Hid.
Qed.

(** X13.  A rotation given the expiry 0 does not pin it: [if (exp)] reads
    0 as absent, so with a positive refresh duration the call succeeds and
    the new refresh token expires at the clock plus the configured
    duration, like a token from [login]. *)
Theorem refreshToken_zero_expiry_is_recomputed (old : Token) (userId : string)
    (v : UserVerifyStatus) (s : UserStatus) (r : UserRole) (w : World) :
  0 < JWT_REFRESH_TOKEN_EXPIRED_IN cfg ->
  exists p : TokenPair,
    run (UserService.refreshToken cfg old userId v s r 0) w = Ok p /\
    pair_refreshToken p = issuedRefreshToken cfg userId v s r w /\
    (exists claims : TokenPayload,
        jwt_verify (pair_refreshToken p) (JWT_REFRESH_TOKEN_SECRET cfg)
          (clock w) = Ok claims /\
        claim_exp claims
        = Some (seconds (clock w) + JWT_REFRESH_TOKEN_EXPIRED_IN cfg)).
Proof.
  intros Hr. unfold run. rewrite refreshToken_unfold_zero. cbv zeta.
  assert (Hleb :
    (seconds (clock w) + JWT_REFRESH_TOKEN_EXPIRED_IN cfg
     <=? seconds (clock w)) = false) by (apply Z.leb_gt; lia).
  rewrite Hleb. cbn [fst].
  eexists (mkTokenPair _ _). split; [reflexivity|]. split; [reflexivity|].
  cbn [pair_refreshToken jwt_verify claim_exp].
  rewrite secret_matches, Hleb. eexists. split; reflexivity.
Qed.

(** X14.  A rotation attempted at or after the pinned expiry always fails
    with [TokenExpiredError]: the new token is signed with that expiry and
    then refused when it is decoded.  The world it leaves has the first
    record of the old token deleted and nothing else changed. *)
Theorem refreshToken_after_expiry_fails (old : Token) (userId : string)
    (v : UserVerifyStatus) (s : UserStatus) (r : UserRole) (e : Z)
    (w : World) :
  e <> 0 ->
  e <= seconds (clock w) ->
  UserService.refreshToken cfg old userId v s r e w
  = (Err TokenExpiredError,
     with_refreshTokens (deleteRefreshToken old (refreshTokens w)) w).
Proof.
  intros He Hle. rewrite refreshToken_unfold by exact He. cbv zeta.
  assert (Hleb : (e <=? seconds (clock w)) = true)
    by (apply Z.leb_le; exact Hle).
  now rewrite Hleb.
Qed.

(** X15.  A successful rotation signs both tokens for exactly the claims
    it was given (id string, verification status, account status, role),
    each under the secret and with the token type of its class.  Only the
    refresh token's expiry is pinned; the access token's expiry is the
    clock plus the configured access duration. *)
Theorem refreshToken_signs_given_claims (old : Token) (userId : string)
    (v : UserVerifyStatus) (s : UserStatus) (r : UserRole) (e : Z)
    (w : World) :
  e <> 0 ->
  seconds (clock w) < e ->
  0 < JWT_ACCESS_TOKEN_EXPIRED_IN cfg ->
  exists p : TokenPair,
    run (UserService.refreshToken cfg old userId v s r e) w = Ok p /\
    (exists pa : TokenPayload,
        jwt_verify (pair_accessToken p) (JWT_ACCESS_TOKEN_SECRET cfg)
          (clock w) = Ok pa /\
        claim_userId pa = Some userId /\
        claim_tokenType pa = Some Access /\
        claim_verify pa = Some v /\
        claim_status pa = Some s /\
        claim_role pa = Some r /\
        claim_exp pa
        = Some (seconds (clock w) + JWT_ACCESS_TOKEN_EXPIRED_IN cfg)) /\
    (exists pr : TokenPayload,
        jwt_verify (pair_refreshToken p) (JWT_REFRESH_TOKEN_SECRET cfg)
          (clock w) = Ok pr /\
        claim_userId pr = Some userId /\
        claim_tokenType pr = Some Refresh /\
        claim_verify pr = Some v /\
        claim_status pr = Some s /\
        claim_role pr = Some r /\
        claim_iat pr = Some (seconds (clock w))).
Proof.
  intros He Hlt Ha. unfold run. rewrite refreshToken_unfold by exact He.
  cbv zeta.
  assert (Hleb : (e <=? seconds (clock w)) = false)
    by (apply Z.leb_gt; exact Hlt).
  assert (Hla :
    (seconds (clock w) + JWT_ACCESS_TOKEN_EXPIRED_IN cfg
     <=? seconds (clock w)) = false) by (apply Z.leb_gt; lia).
  rewrite Hleb. cbn [fst].
  eexists (mkTokenPair _ _). split; [reflexivity|].
  cbn [pair_accessToken pair_refreshToken jwt_verify claim_exp].
  rewrite !secret_matches, Hleb, Hla.
  split; eexists; repeat split; reflexivity.
Qed.

(** X16.  After a successful rotation a store lookup finds the new
    refresh token; and when the old token was recorded at most once and is
    not the very string just issued, a lookup of the old token finds
    nothing. *)
Theorem rotation_swaps_the_lookup (old : Token) (userId : string)
    (v : UserVerifyStatus) (s : UserStatus) (r : UserRole) (e : Z)
    (w : World) :
  e <> 0 ->
  seconds (clock w) < e ->
  (countRefreshToken old (refreshTokens w) <= 1)%nat ->
  old <> rotatedToken cfg userId v s r e w ->
  let w' := exec (UserService.refreshToken cfg old userId v s r e) w in
  exists p : TokenPair,
    run (UserService.refreshToken cfg old userId v s r e) w = Ok p /\
    pair_refreshToken p = rotatedToken cfg userId v s r e w /\
    findRefreshToken (pair_refreshToken p) (refreshTokens w') <> None /\
    findRefreshToken old (refreshTokens w') = None.
Proof.
  intros He Hlt Hcount Hne w'. subst w'. unfold run, exec.
  rewrite refreshToken_unfold by exact He. cbv zeta.
  assert (Hleb : (e <=? seconds (clock w)) = false)
    by (apply Z.leb_gt; exact Hlt).
  rewrite Hleb. cbn [fst snd]. world_simpl.
  eexists (mkTokenPair _ _). split; [reflexivity|]. split; [reflexivity|].
  cbn [pair_refreshToken]. split.
  - apply findRefreshToken_app_last. reflexivity.
  - rewrite findRefreshToken_app_other
      by (cbn [token]; intros Heq; apply Hne; symmetry; exact Heq).
    apply findRefreshToken_count. rewrite countRefreshToken_delete. lia.
Qed.

(** X17.  With a refresh secret different from the other three secrets,
    [decodeRefreshToken] refuses every access, verify-email and
    forgot-password token the service signs: a token of another class is
    never read as a refresh token. *)
Theorem decodeRefreshToken_refuses_other_classes (userId : string)
    (v : UserVerifyStatus) (s : UserStatus) (r : UserRole) (w w' : World) :
  JWT_ACCESS_TOKEN_SECRET cfg <> JWT_REFRESH_TOKEN_SECRET cfg ->
  JWT_VERIFY_EMAIL_TOKEN_SECRET cfg <> JWT_REFRESH_TOKEN_SECRET cfg ->
  JWT_FORGOT_PASSWORD_TOKEN_SECRET cfg <> JWT_REFRESH_TOKEN_SECRET cfg ->
  (forall t : Token,
      run (UserService.signAccessToken cfg userId v s r) w = Ok t ->
      run (UserService.decodeRefreshToken cfg t) w' = Err JsonWebTokenError) /\
  (forall t : Token,
      run (UserService.signVerifyEmailToken cfg userId) w = Ok t ->
      run (UserService.decodeRefreshToken cfg t) w' = Err JsonWebTokenError) /\
  (forall t : Token,
      run (UserService.signForgotPasswordToken cfg userId) w = Ok t ->
      run (UserService.decodeRefreshToken cfg t) w' = Err JsonWebTokenError).
Proof.
  intros Ha Hv Hf.
  unfold run, UserService.signAccessToken, UserService.signVerifyEmailToken,
    UserService.signForgotPasswordToken, UserService.decodeRefreshToken,
    signToken, verifyToken.
  cbn [fst jwt_sign claim_iat claim_exp app].
  repeat split; intros t [= <-]; cbn [jwt_verify];
    now rewrite bool_decide_eq_false_2.
Qed.

(** X18.  Whenever the generated id is fresh, [register] stores what it
    mails, also when a later step fails: the verify-email token mailed to
    the given address is the token written to the new user's
    [verifyEmailToken]; it is signed for the new id's string as a
    verify-email token and carries no role, status or verification claim.
    The password stored is [hashPassword(password)]. *)
Theorem register_stores_what_it_mails (data : RegisterReqBody) (w : World) :
  findUser (nextObjectId w) (users w) = None ->
  let tok :=
    issuedVerifyEmailToken cfg (ObjectId_toString (nextObjectId w)) w in
  let w' := exec (UserService.register cfg hash data) w in
  outbox w' = outbox w ++ [VerifyEmailMail (body_email data) tok] /\
  (exists u : User,
      users w' = users w ++ [u] /\
      findUser (nextObjectId w) (users w') = Some u /\
      _id u = nextObjectId w /\
      email u = body_email data /\
      password u = hash (body_password data) /\
      verifyEmailToken u = tok) /\
  (exists claims : TokenPayload,
      jwt_decode tok = Some claims /\
      claim_userId claims = Some (ObjectId_toString (nextObjectId w)) /\
      claim_tokenType claims = Some VerifyEmail /\
      claim_role claims = None /\
      claim_status claims = None /\
      claim_verify claims = None).
Proof.
  intros Hfresh tok w'. subst tok w'. unfold exec.
  rewrite (register_fresh cfg hash data w Hfresh). cbv zeta.
  assert (Hw : forall (b : bool) (x y : Result Session) (w1 w2 : World),
             outbox w1 = outbox (afterInsert cfg hash data w) ->
             outbox w2 = outbox (afterInsert cfg hash data w) ->
             users w1 = users (afterInsert cfg hash data w) ->
             users w2 = users (afterInsert cfg hash data w) ->
             outbox (snd (if b then (x, w1) else (y, w2)))
             = outbox (afterInsert cfg hash data w) /\
             users (snd (if b then (x, w1) else (y, w2)))
             = users (afterInsert cfg hash data w)).
  { intros [] x y w1 w2 Ho1 Ho2 Hu1 Hu2; split; assumption. }
  match goal with
  | |- context [snd (if ?b then (?x, ?w1) else (?y, ?w2))] =>
      destruct (Hw b x y w1 w2 eq_refl eq_refl eq_refl eq_refl) as [Ho Hu]
  end.
  rewrite Ho, Hu. unfold afterInsert. world_simpl.
  split; [reflexivity|]. split.
  - eexists. split; [reflexivity|].
    split; [apply findUser_app_fresh; [exact Hfresh|reflexivity]|].
    repeat split; reflexivity.
  - eexists. repeat split; reflexivity.
Qed.

(** X19.  [registerController] adds nothing to [register]: the world it
    leaves is the one [register] leaves; a failure of [register] is its
    failure; and on success the response carries the success message and,
    as data, the two tokens of the session and under [user] the sanitised
    user view. *)
Theorem registerController_wraps_register (req : Request) (w : World) :
  exec (registerController cfg hash req) w
  = exec (UserService.register cfg hash (req_body req)) w /\
  match run (UserService.register cfg hash (req_body req)) w with
  | Ok s =>
      run (registerController cfg hash req) w
      = Ok {| res_message := REGISTER_SUCCESS; res_data := Session_doc s |} /\
      field "accessToken" (Session_doc s) = Some (VToken (accessToken s)) /\
      field "refreshToken" (Session_doc s) = Some (VToken (refreshToken s)) /\
      field "user" (Session_doc s) = Some (VObject (user s)) /\
      sanitized (user s)
  | Err e => run (registerController cfg hash req) w = Err e
  end.
Proof.
  unfold run, exec, registerController, bind.
  destruct (UserService.register cfg hash (req_body req) w) as [[s|e] w1] eqn:E.
  - cbn [fst snd ret]. split; [reflexivity|].
    split; [reflexivity|]. split; [reflexivity|]. split; [reflexivity|].
    split; [reflexivity|].
    assert (Hrun : run (UserService.register cfg hash (req_body req)) w = Ok s)
      by (unfold run; now rewrite E).
    destruct (register_view cfg hash (req_body req) w s Hrun) as [u ->].
    apply omitted_view_sanitized.
  - cbn [fst snd]. split; reflexivity.
Qed.

(** *** What every call keeps *)

Lemma register_duplicate_world (data : RegisterReqBody) (w : World)
    (u0 : User) :
  findUser (nextObjectId w) (users w) = Some u0 ->
  exec (UserService.register cfg hash data) w
  = with_outbox
      (outbox w
       ++ [VerifyEmailMail (body_email data)
             (issuedVerifyEmailToken cfg (ObjectId_toString (nextObjectId w))
                w)])
      (with_nextObjectId (laterObjectIds w 0%nat)
         (fun n => laterObjectIds w (S n)) w).
Proof.
  intros Hdup.
  unfold exec, UserService.register, bind, Promise_all,
    ObjectId_generate, UserService.signVerifyEmailToken, signToken,
    Date_now, sendVerifyEmail, users_insertOne.
  cbn [jwt_sign claim_iat claim_exp fst snd clock users with_nextObjectId
       with_outbox new_User _id app].
  rewrite Hdup. reflexivity.
Qed.

(** The users collection after one call: unchanged, updated in place by a
    function that keeps ids, or extended by a user with the generated,
    fresh id. *)
Lemma step_users (c : Call) (w : World) :
  users (step cfg hash c w) = users w \/
  (exists (oid : ObjectId) (f : User -> User),
      (forall x, _id (f x) = _id x) /\
      users (step cfg hash c w) = updateUser oid f (users w)) \/
  (exists (data : RegisterReqBody) (u : User),
      c = CallRegister data /\
      findUser (nextObjectId w) (users w) = None /\
      _id u = nextObjectId w /\
      users (step cfg hash c w) = users w ++ [u]).
Proof.
  destruct c as [data|u|userId|userId|t|t userId v s r e|userId email_
                |pw userId|now]; cbn [step].
  - destruct (findUser (nextObjectId w) (users w)) as [u0|] eqn:Hid.
    + left. now rewrite (register_duplicate_world data w u0 Hid).
    + right. right. unfold exec.
      rewrite (register_fresh cfg hash data w Hid). cbv zeta.
      exists data.
      exists (new_User (nextObjectId w) (body_email data)
                (hash (body_password data))
                (issuedVerifyEmailToken cfg
                   (ObjectId_toString (nextObjectId w)) w)
                (clock w)).
      split; [reflexivity|]. split; [reflexivity|].
      destruct (seconds (clock w) + JWT_REFRESH_TOKEN_EXPIRED_IN cfg
                <=? seconds (clock w)); cbn [snd]; unfold afterInsert;
        world_simpl; split; reflexivity.
  - left. unfold exec. rewrite login_unfold. cbv zeta.
    destruct (seconds (clock w) + JWT_REFRESH_TOKEN_EXPIRED_IN cfg
              <=? seconds (clock w)); reflexivity.
  - unfold exec. rewrite resendEmailVerify_unfold.
    destruct (ObjectId_new userId) as [oid|e]; [|now left].
    destruct (findUser oid (users w)) as [u|]; [|now left].
    right. left. eexists. eexists. split; [|reflexivity].
    intros x. apply applyUpdate_id.
  - unfold exec. rewrite verifyEmail_unfold.
    destruct (ObjectId_new userId) as [oid|e]; [|now left].
    right. left. cbv zeta. eexists. eexists.
    split; [intros x; apply applyUpdate_id|].
    destruct (findUser oid (users w)); reflexivity.
  - now left.
  - left. unfold exec. destruct (Z.eq_dec e 0) as [->|He].
    + rewrite refreshToken_unfold_zero. cbv zeta.
      destruct (seconds (clock w) + JWT_REFRESH_TOKEN_EXPIRED_IN cfg
                <=? seconds (clock w)); reflexivity.
    + rewrite refreshToken_unfold by exact He. cbv zeta.
      destruct (e <=? seconds (clock w)); reflexivity.
  - unfold exec. rewrite forgotPassword_unfold. cbv zeta.
    destruct (ObjectId_new userId) as [oid|e]; [|now left].
    right. left. eexists. eexists. split; [|reflexivity].
    intros x. apply applyUpdate_id.
  - unfold exec. rewrite resetPassword_unfold.
    destruct (ObjectId_new userId) as [oid|e]; [|now left].
    right. left. cbv zeta. eexists. eexists.
    split; [intros x; apply applyUpdate_id|].
    destruct (findUser oid (users w)); reflexivity.
  - now left.
Qed.

(** The ids after one call: as before, or with the generated id added at
    the end. *)
Lemma step_userIds (c : Call) (w : World) :
  userIds (step cfg hash c w) = userIds w \/
  (findUser (nextObjectId w) (users w) = None /\
   (exists data, c = CallRegister data) /\
   userIds (step cfg hash c w) = userIds w ++ [nextObjectId w]).
Proof.
  unfold userIds.
  destruct (step_users c w) as [H | [(oid & f & Hf & H) | (data & u & Hc & Hfresh & Hu & H)]].
  - left. now rewrite H.
  - left. rewrite H. now apply map_id_updateUser.
  - right. split; [exact Hfresh|]. split; [now exists data|].
    rewrite H, List.map_app. cbn [List.map]. now rewrite Hu.
Qed.

Lemma NoDup_snoc (x : ObjectId) (l : list ObjectId) :
  List.NoDup l -> ~ List.In x l -> List.NoDup (l ++ [x]).
Proof.
  induction 1 as [|y l Hy Hl IH]; intros Hx; simpl.
  - constructor; [tauto|constructor].
  - constructor.
    + rewrite List.in_app_iff. simpl. intros [Hin|[Heq|[]]]; [tauto|].
      apply Hx. now left.
    + apply IH. intros Hin. apply Hx. now right.
Qed.

Lemma step_uniqueIds (c : Call) (w : World) :
  uniqueIds w -> uniqueIds (step cfg hash c w).
Proof.
  unfold uniqueIds. intros Hu.
  destruct (step_userIds c w) as [-> | (Hfresh & _ & ->)]; [exact Hu|].
  apply NoDup_snoc; [exact Hu|]. now apply findUser_None_not_In.
Qed.

(** The refresh records after one call: at most one record deleted, at
    most one record added, and an added record agrees with its token. *)
Lemma step_refreshTokens (c : Call) (w : World) :
  exists kept : list RefreshToken,
    (kept = refreshTokens w \/
     exists t, kept = deleteRefreshToken t (refreshTokens w)) /\
    (refreshTokens (step cfg hash c w) = kept \/
     exists rec, recordMatches rec /\
                 refreshTokens (step cfg hash c w) = kept ++ [rec]).
Proof.
  destruct c as [data|u|userId|userId|t|t userId v s r e|userId email_
                |pw userId|now]; cbn [step].
  - exists (refreshTokens w). split; [now left|].
    destruct (findUser (nextObjectId w) (users w)) as [u0|] eqn:Hid.
    + left. now rewrite (register_duplicate_world data w u0 Hid).
    + unfold exec. rewrite (register_fresh cfg hash data w Hid). cbv zeta.
      destruct (seconds (clock w) + JWT_REFRESH_TOKEN_EXPIRED_IN cfg
                <=? seconds (clock w)); cbn [snd].
      * now left.
      * right. eexists. split; [|reflexivity]. split; reflexivity.
  - exists (refreshTokens w). split; [now left|].
    unfold exec. rewrite login_unfold. cbv zeta.
    destruct (seconds (clock w) + JWT_REFRESH_TOKEN_EXPIRED_IN cfg
              <=? seconds (clock w)); cbn [snd].
    + now left.
    + right. eexists. split; [|reflexivity]. split; reflexivity.
  - exists (refreshTokens w). split; [now left|]. left.
    unfold exec. rewrite resendEmailVerify_unfold.
    destruct (ObjectId_new userId) as [oid|e]; [|reflexivity].
    destruct (findUser oid (users w)); reflexivity.
  - exists (refreshTokens w). split; [now left|]. left.
    apply verifyEmail_refreshTokens.
  - exists (deleteRefreshToken t (refreshTokens w)).
    split; [right; now exists t|]. now left.
  - exists (deleteRefreshToken t (refreshTokens w)).
    split; [right; now exists t|].
    unfold exec. destruct (Z.eq_dec e 0) as [->|He].
    + rewrite refreshToken_unfold_zero. cbv zeta.
      destruct (seconds (clock w) + JWT_REFRESH_TOKEN_EXPIRED_IN cfg
                <=? seconds (clock w)); cbn [snd].
      * now left.
      * right. eexists. split; [|reflexivity]. split; reflexivity.
    + rewrite refreshToken_unfold by exact He. cbv zeta.
      destruct (e <=? seconds (clock w)); cbn [snd].
      * now left.
      * right. eexists. split; [|reflexivity]. split; reflexivity.
  - exists (refreshTokens w). split; [now left|]. left.
    unfold exec. rewrite forgotPassword_unfold. cbv zeta.
    destruct (ObjectId_new userId); reflexivity.
  - exists (refreshTokens w). split; [now left|]. left.
    apply resetPassword_refreshTokens.
  - exists (refreshTokens w). split; [now left|]. now left.
Qed.

Lemma step_recordsMatch (c : Call) (w : World) :
  recordsMatch w -> recordsMatch (step cfg hash c w).
Proof.
  unfold recordsMatch. intros H.
  destruct (step_refreshTokens c w) as (kept & Hkept & Hafter).
  assert (Hk : List.Forall recordMatches kept).
  { destruct Hkept as [-> | [t ->]]; [exact H|].
    now apply Forall_deleteRefreshToken. }
  destruct Hafter as [-> | (rec & Hrec & ->)]; [exact Hk|].
  apply List.Forall_app. split; [exact Hk|]. now constructor.
Qed.

(** X20.  The users collection never holds two users with the same
    [_id]: every call of the service, successful or not, keeps ids
    unique, and so does every sequence of calls with the clock moving in
    between. *)
Theorem user_ids_stay_unique (calls : list Call) (w : World) :
  uniqueIds w -> uniqueIds (runCalls cfg hash calls w).
Proof.
  unfold runCalls. revert w.
  induction calls as [|c calls IH]; intros w Hw; simpl; [exact Hw|].
  apply IH. now apply step_uniqueIds.
Qed.

(** X21.  No call removes or reorders a user: after any sequence of
    calls the ids stored before are still there, in the same order and
    places, followed by the ids added since; and a single call other than
    [register] leaves the ids exactly as they are. *)
Theorem users_are_never_removed (calls : list Call) (w : World) :
  (exists added : list ObjectId,
      userIds (runCalls cfg hash calls w) = userIds w ++ added) /\
  (forall c : Call,
      (forall data, c <> CallRegister data) ->
      userIds (step cfg hash c w) = userIds w).
Proof.
  split.
  - unfold runCalls. revert w.
    induction calls as [|c calls IH]; intros w; simpl.
    + exists []. now rewrite List.app_nil_r.
    + destruct (IH (step cfg hash c w)) as [added Hadded].
      destruct (step_userIds c w) as [Hsame | (_ & _ & Happ)].
      * exists added. now rewrite Hadded, Hsame.
      * exists (nextObjectId w :: added).
        rewrite Hadded, Happ, <- List.app_assoc. reflexivity.
  - intros c Hc.
    destruct (step_userIds c w) as [Hsame | (_ & [data ->] & _)];
      [exact Hsame|].
    now destruct (Hc data).
Qed.

(** X22.  Every refresh record agrees with its token: if the stored
    issued-at and expiry of every record are the claims of the record's
    token, they still are after any sequence of calls.  The service only
    ever stores what it has decoded from the token it stores. *)
Theorem refresh_records_match_their_tokens (calls : list Call) (w : World) :
  recordsMatch w -> recordsMatch (runCalls cfg hash calls w).
Proof.
  unfold runCalls. revert w.
  induction calls as [|c calls IH]; intros w Hw; simpl; [exact Hw|].
  apply IH. now apply step_recordsMatch.
Qed.

(** X24.  Registering and then verifying with the id string carried by
    the issued access token works: for a fresh generated id below 2^96 and
    a positive refresh duration, [register] succeeds, the [userId] claim
    of its access token is accepted by [verifyEmail], and afterwards the
    user just registered is stored as [Verified] with an empty
    verify-email token. *)
Theorem register_then_verifyEmail_by_claim (data : RegisterReqBody)
    (w : World) :
  findUser (nextObjectId w) (users w) = None ->
  (nextObjectId w < 2 ^ 96)%N ->
  0 < JWT_REFRESH_TOKEN_EXPIRED_IN cfg ->
  exists (s : Session) (claims : TokenPayload) (userId : string),
    run (UserService.register cfg hash data) w = Ok s /\
    jwt_decode (accessToken s) = Some claims /\
    claim_userId claims = Some userId /\
    let w1 := exec (UserService.register cfg hash data) w in
    (exists s2 : Session,
        run (UserService.verifyEmail cfg userId) w1 = Ok s2) /\
    (exists u' : User,
        findUser (nextObjectId w)
          (users (exec (UserService.verifyEmail cfg userId) w1)) = Some u' /\
        email u' = body_email data /\
        verify u' = Verified /\
        verifyEmailToken u' = Opaque "").
Proof.
  intros Hfresh Hsmall Hr. unfold run, exec.
  rewrite (register_fresh cfg hash data w Hfresh). cbv zeta.
  assert (Hleb :
    (seconds (clock w) + JWT_REFRESH_TOKEN_EXPIRED_IN cfg
     <=? seconds (clock w)) = false) by (apply Z.leb_gt; lia).
  rewrite Hleb. cbn [fst snd].
  eexists (mkSession _ _ _). eexists. eexists.
  split; [reflexivity|]. split; [reflexivity|]. split; [reflexivity|].
  cbv zeta. rewrite verifyEmail_unfold.
  rewrite (ObjectId_toString_new _ Hsmall). cbv zeta.
  unfold afterInsert. world_simpl.
  rewrite (findUser_app_fresh _ _ _ Hfresh) by reflexivity.
  cbn [fst snd]. world_simpl.
  split; [eexists; reflexivity|].
  eexists. split.
  - apply findUser_updateUser; [intros x; apply applyUpdate_id|].
    apply findUser_app_fresh; [exact Hfresh|reflexivity].
  - repeat split; reflexivity.
Qed.

End FurtherProperties.

(** *** The validator *)

(** X25.  A request with no [productCategoryId] parameter, or with one
    made of white space only, is rejected with BadRequest (id required),
    the world unchanged. *)
Theorem blank_productCategoryId_is_required (req : Request) (w : World) :
  allSpace (param "productCategoryId" (req_params req)) = true ->
  productCategoryIdValidator req w
  = (Err (ErrorWithStatus PRODUCT_CATEGORY_ID_IS_REQUIRED BadRequest), w).
Proof.
  intros Hblank.
  unfold productCategoryIdValidator, productCategoryId_custom, bind.
  now rewrite (allSpace_trim _ Hblank).
Qed.

(** *** The further properties at concrete inputs *)

(** X2 at a concrete input: the registered user logs in. *)
Lemma login_issues_session_witness :
  0 < JWT_ACCESS_TOKEN_EXPIRED_IN exampleConfig /\
  0 < JWT_REFRESH_TOKEN_EXPIRED_IN exampleConfig /\
  exists p : TokenPair,
    run (UserService.login exampleConfig registeredUser) registeredWorld
    = Ok p /\
    exists pa : TokenPayload,
      jwt_verify (pair_accessToken p) "access-secret" 1700000000500 = Ok pa /\
      claim_userId pa = Some hexId7 /\
      claim_verify pa = Some Unverified.
Proof.
  assert (Ha : 0 < JWT_ACCESS_TOKEN_EXPIRED_IN exampleConfig) by reflexivity.
  assert (Hr : 0 < JWT_REFRESH_TOKEN_EXPIRED_IN exampleConfig) by reflexivity.
  split; [exact Ha|]. split; [exact Hr|].
  destruct (login_issues_session exampleConfig registeredUser registeredWorld
              Ha Hr) as (p & Hlogin & (pa & Hv & Huid & _ & Hverify & _) & _).
  exists p. split.
  - unfold run. rewrite Hlogin. reflexivity.
  - exists pa. split; [exact Hv|]. split; [exact Huid|exact Hverify].
Defined.


(** X4 at a concrete input: logging out an unrelated string leaves the
    registered refresh token in place. *)
Lemma logout_leaves_other_tokens_witness :
  registeredRefreshToken <> Opaque "other" /\
  findRefreshToken registeredRefreshToken
    (refreshTokens (exec (UserService.logout (Opaque "other")) registeredWorld))
  = findRefreshToken registeredRefreshToken (refreshTokens registeredWorld).
Proof.
  assert (Hne : registeredRefreshToken <> Opaque "other") by discriminate.
  split; [exact Hne|].
  exact (proj1 (logout_leaves_other_tokens (Opaque "other")
                  registeredRefreshToken registeredWorld Hne)).
Defined.

(** X5 at a concrete input. *)
Lemma logout_unknown_token_is_noop_witness :
  findRefreshToken (Opaque "other") (refreshTokens registeredWorld) = None /\
  UserService.logout (Opaque "other") registeredWorld
  = (Ok true, registeredWorld).
Proof.
  assert (H : findRefreshToken (Opaque "other") (refreshTokens registeredWorld)
              = None) by reflexivity.
  split; [exact H|].
  exact (logout_unknown_token_is_noop (Opaque "other") registeredWorld H).
Defined.

(** X6 at a concrete input: login then logout on the empty store. *)
Lemma login_then_logout_restores_witness :
  0 < JWT_REFRESH_TOKEN_EXPIRED_IN exampleConfig /\
  findRefreshToken
    (issuedRefreshToken exampleConfig (ObjectId_toString (_id registeredUser))
       (verify registeredUser) (status registeredUser) (role registeredUser)
       emptyWorld) (refreshTokens emptyWorld) = None /\
  exists p : TokenPair,
    run (UserService.login exampleConfig registeredUser) emptyWorld = Ok p /\
    exec (UserService.logout (pair_refreshToken p))
      (exec (UserService.login exampleConfig registeredUser) emptyWorld)
    = emptyWorld.
Proof.
  assert (Hr : 0 < JWT_REFRESH_TOKEN_EXPIRED_IN exampleConfig) by reflexivity.
  assert (Hn : findRefreshToken
                 (issuedRefreshToken exampleConfig
                    (ObjectId_toString (_id registeredUser))
                    (verify registeredUser) (status registeredUser)
                    (role registeredUser) emptyWorld)
                 (refreshTokens emptyWorld) = None) by reflexivity.
  split; [exact Hr|]. split; [exact Hn|].
  destruct (login_then_logout_restores exampleConfig registeredUser
              emptyWorld Hr Hn) as (p & H1 & _ & H3).
  exists p. split; [exact H1|exact H3].
Defined.

(** X7 at a concrete input: the registered user asks for a password
    reset. *)
Lemma forgotPassword_stores_mailed_token_witness :
  ObjectId_new hexId7 = Ok 7%N /\
  findUser 7%N (users registeredWorld) = Some registeredUser /\
  run (UserService.forgotPassword exampleConfig hexId7 "a@x.com")
    registeredWorld = Ok tt /\
  outbox (exec (UserService.forgotPassword exampleConfig hexId7 "a@x.com")
            registeredWorld)
  = outbox registeredWorld
    ++ [ForgotPasswordMail "a@x.com"
          (issuedForgotPasswordToken exampleConfig hexId7 registeredWorld)].
Proof.
  assert (Hid : ObjectId_new hexId7 = Ok 7%N) by reflexivity.
  assert (Hu : findUser 7%N (users registeredWorld) = Some registeredUser)
    by reflexivity.
  split; [exact Hid|]. split; [exact Hu|].
  destruct (forgotPassword_stores_mailed_token exampleConfig hexId7 "a@x.com"
              7%N registeredUser registeredWorld Hid Hu) as (H1 & H2 & _).
  split; [exact H1|exact H2].
Defined.

(** X8 at a concrete input: a reset asked for an id nobody has. *)
Lemma forgotPassword_unknown_user_still_mails_witness :
  ObjectId_new hexId7 = Ok 7%N /\
  findUser 7%N (users emptyWorld) = None /\
  UserService.forgotPassword exampleConfig hexId7 "b@x.com" emptyWorld
  = (Ok tt,
     with_outbox
       (outbox emptyWorld
        ++ [ForgotPasswordMail "b@x.com"
              (issuedForgotPasswordToken exampleConfig hexId7 emptyWorld)])
       emptyWorld).
Proof.
  assert (Hid : ObjectId_new hexId7 = Ok 7%N) by reflexivity.
  assert (Hu : findUser 7%N (users emptyWorld) = None) by reflexivity.
  split; [exact Hid|]. split; [exact Hu|].
  exact (forgotPassword_unknown_user_still_mails exampleConfig hexId7
           "b@x.com" 7%N emptyWorld Hid Hu).
Defined.

(** X9 at a concrete input: the registered user asks for the mail again. *)
Lemma resendEmailVerify_overwrites_token_witness :
  ObjectId_new hexId7 = Ok 7%N /\
  findUser 7%N (users registeredWorld) = Some registeredUser /\
  run (UserService.resendEmailVerify exampleConfig hexId7) registeredWorld
  = Ok true /\
  outbox (exec (UserService.resendEmailVerify exampleConfig hexId7)
            registeredWorld)
  = outbox registeredWorld
    ++ [VerifyEmailMail "a@x.com"
          (issuedVerifyEmailToken exampleConfig hexId7 registeredWorld)].
Proof.
  assert (Hid : ObjectId_new hexId7 = Ok 7%N) by reflexivity.
  assert (Hu : findUser 7%N (users registeredWorld) = Some registeredUser)
    by reflexivity.
  split; [exact Hid|]. split; [exact Hu|].
  destruct (resendEmailVerify_overwrites_token exampleConfig hexId7 7%N
              registeredUser registeredWorld Hid Hu) as (H1 & H2 & _).
  split; [exact H1|exact H2].
Defined.

(** X11 at a concrete input: the registered user verifies twice. *)
Lemma verifyEmail_twice_witness :
  ObjectId_new hexId7 = Ok 7%N /\
  findUser 7%N (users registeredWorld) = Some registeredUser /\
  exec (UserService.verifyEmail exampleConfig hexId7)
    (exec (UserService.verifyEmail exampleConfig hexId7) registeredWorld)
  = exec (UserService.verifyEmail exampleConfig hexId7) registeredWorld.
Proof.
  assert (Hid : ObjectId_new hexId7 = Ok 7%N) by reflexivity.
  assert (Hu : findUser 7%N (users registeredWorld) = Some registeredUser)
    by reflexivity.
  split; [exact Hid|]. split; [exact Hu|].
  exact (proj1 (verifyEmail_twice exampleConfig hexId7 7%N registeredUser
                  registeredWorld Hid Hu)).
Defined.

(** X12 at a concrete input: an id string that is too short. *)
Lemma malformed_userId_outcomes_witness :
  ObjectId_new "7" = Err BSONError /\
  UserService.verifyEmail exampleConfig "7" registeredWorld
  = (Err BSONError, registeredWorld) /\
  outbox (exec (UserService.forgotPassword exampleConfig "7" "a@x.com")
            registeredWorld)
  = outbox registeredWorld
    ++ [ForgotPasswordMail "a@x.com"
          (issuedForgotPasswordToken exampleConfig "7" registeredWorld)].
Proof.
  assert (Hid : ObjectId_new "7" = Err BSONError) by reflexivity.
  split; [exact Hid|].
  destruct (malformed_userId_outcomes exampleConfig exampleHash "7" BSONError
              registeredWorld Hid) as (_ & H2 & _ & H4).
  split; [exact H2|].
  unfold exec. rewrite (H4 "a@x.com"). reflexivity.
Defined.

(** X13 at a concrete input: a rotation given the expiry 0. *)
Lemma refreshToken_zero_expiry_is_recomputed_witness :
  0 < JWT_REFRESH_TOKEN_EXPIRED_IN exampleConfig /\
  exists p : TokenPair,
    run (UserService.refreshToken exampleConfig registeredRefreshToken hexId7
           Unverified Active Customer 0) registeredWorld = Ok p /\
    exists claims : TokenPayload,
      jwt_verify (pair_refreshToken p) "refresh-secret" 1700000000500
      = Ok claims /\
      claim_exp claims = Some 1708640000.
Proof.
  assert (Hr : 0 < JWT_REFRESH_TOKEN_EXPIRED_IN exampleConfig) by reflexivity.
  split; [exact Hr|].
  destruct (refreshToken_zero_expiry_is_recomputed exampleConfig
              registeredRefreshToken hexId7 Unverified Active Customer
              registeredWorld Hr) as (p & H1 & _ & H3).
  exists p. split; [exact H1|exact H3].
Defined.

(** X14 at a concrete input: rotating five seconds after the expiry. *)
Lemma refreshToken_after_expiry_fails_witness :
  1708640000 <> 0 /\
  1708640000 <= seconds (clock lateWorld) /\
  UserService.refreshToken exampleConfig registeredRefreshToken hexId7
    Unverified Active Customer 1708640000 lateWorld
  = (Err TokenExpiredError,
     with_refreshTokens
       (deleteRefreshToken registeredRefreshToken (refreshTokens lateWorld))
       lateWorld).
Proof.
  assert (H0 : 1708640000 <> 0) by discriminate.
  assert (H1 : 1708640000 <= seconds (clock lateWorld)) by discriminate.
  split; [exact H0|]. split; [exact H1|].
  exact (refreshToken_after_expiry_fails exampleConfig registeredRefreshToken
           hexId7 Unverified Active Customer 1708640000 lateWorld H0 H1).
Defined.

(** X15 at a concrete input: rotating for a user who is now verified. *)
Lemma refreshToken_signs_given_claims_witness :
  1708640000 <> 0 /\
  seconds (clock registeredWorld) < 1708640000 /\
  0 < JWT_ACCESS_TOKEN_EXPIRED_IN exampleConfig /\
  exists p : TokenPair,
    run (UserService.refreshToken exampleConfig registeredRefreshToken hexId7
           Verified Active Customer 1708640000) registeredWorld = Ok p /\
    exists pa : TokenPayload,
      jwt_verify (pair_accessToken p) "access-secret" 1700000000500 = Ok pa /\
      claim_verify pa = Some Verified /\
      claim_exp pa = Some 1700000900.
Proof.
  assert (H0 : 1708640000 <> 0) by discriminate.
  assert (H1 : seconds (clock registeredWorld) < 1708640000) by reflexivity.
  assert (Ha : 0 < JWT_ACCESS_TOKEN_EXPIRED_IN exampleConfig) by reflexivity.
  split; [exact H0|]. split; [exact H1|]. split; [exact Ha|].
  destruct (refreshToken_signs_given_claims exampleConfig
              registeredRefreshToken hexId7 Verified Active Customer
              1708640000 registeredWorld H0 H1 Ha)
    as (p & Hrun & (pa & Hv & _ & _ & Hverify & _ & _ & Hexp) & _).
  exists p. split; [exact Hrun|].
  exists pa. split; [exact Hv|]. split; [exact Hverify|exact Hexp].
Defined.

(** X16 at a concrete input: rotating the registered refresh token. *)
Lemma rotation_swaps_the_lookup_witness :
  1708640000 <> 0 /\
  seconds (clock registeredWorld) < 1708640000 /\
  (countRefreshToken registeredRefreshToken (refreshTokens registeredWorld)
   <= 1)%nat /\
  registeredRefreshToken
  <> rotatedToken exampleConfig hexId7 Unverified Active Customer 1708640000
       registeredWorld /\
  exists p : TokenPair,
    run (UserService.refreshToken exampleConfig registeredRefreshToken hexId7
           Unverified Active Customer 1708640000) registeredWorld = Ok p /\
    findRefreshToken (pair_refreshToken p)
      (refreshTokens
         (exec (UserService.refreshToken exampleConfig registeredRefreshToken
                  hexId7 Unverified Active Customer 1708640000)
            registeredWorld)) <> None /\
    findRefreshToken registeredRefreshToken
      (refreshTokens
         (exec (UserService.refreshToken exampleConfig registeredRefreshToken
                  hexId7 Unverified Active Customer 1708640000)
            registeredWorld)) = None.
Proof.
  assert (H0 : 1708640000 <> 0) by discriminate.
  assert (H1 : seconds (clock registeredWorld) < 1708640000) by reflexivity.
  assert (Hc : (countRefreshToken registeredRefreshToken
                  (refreshTokens registeredWorld) <= 1)%nat)
    by (vm_compute; constructor).
  assert (Hne : registeredRefreshToken
                <> rotatedToken exampleConfig hexId7 Unverified Active
                     Customer 1708640000 registeredWorld) by discriminate.
  split; [exact H0|]. split; [exact H1|]. split; [exact Hc|].
  split; [exact Hne|].
  destruct (rotation_swaps_the_lookup exampleConfig registeredRefreshToken
              hexId7 Unverified Active Customer 1708640000 registeredWorld
              H0 H1 Hc Hne) as (p & Hrun & _ & Hnew & Hold).
  exists p. split; [exact Hrun|]. split; [exact Hnew|exact Hold].
Defined.

(** X17 at a concrete input: the four example secrets differ. *)
Lemma decodeRefreshToken_refuses_other_classes_witness :
  JWT_ACCESS_TOKEN_SECRET exampleConfig
  <> JWT_REFRESH_TOKEN_SECRET exampleConfig /\
  JWT_VERIFY_EMAIL_TOKEN_SECRET exampleConfig
  <> JWT_REFRESH_TOKEN_SECRET exampleConfig /\
  JWT_FORGOT_PASSWORD_TOKEN_SECRET exampleConfig
  <> JWT_REFRESH_TOKEN_SECRET exampleConfig /\
  run (UserService.decodeRefreshToken exampleConfig
         (issuedAccessToken exampleConfig hexId7 Unverified Active Customer
            registeredWorld)) registeredWorld = Err JsonWebTokenError.
Proof.
  assert (Ha : JWT_ACCESS_TOKEN_SECRET exampleConfig
               <> JWT_REFRESH_TOKEN_SECRET exampleConfig) by discriminate.
  assert (Hv : JWT_VERIFY_EMAIL_TOKEN_SECRET exampleConfig
               <> JWT_REFRESH_TOKEN_SECRET exampleConfig) by discriminate.
  assert (Hf : JWT_FORGOT_PASSWORD_TOKEN_SECRET exampleConfig
               <> JWT_REFRESH_TOKEN_SECRET exampleConfig) by discriminate.
  split; [exact Ha|]. split; [exact Hv|]. split; [exact Hf|].
  apply (proj1 (decodeRefreshToken_refuses_other_classes exampleConfig hexId7
                  Unverified Active Customer registeredWorld registeredWorld
                  Ha Hv Hf)).
  reflexivity.
Defined.

(** X18 at a concrete input: registering on the empty store. *)
Lemma register_stores_what_it_mails_witness :
  findUser (nextObjectId emptyWorld) (users emptyWorld) = None /\
  outbox registeredWorld
  = [VerifyEmailMail "a@x.com" (verifyEmailToken registeredUser)] /\
  exists u : User,
    users registeredWorld = users emptyWorld ++ [u] /\
    password u = "digest:secret" /\
    verifyEmailToken u = verifyEmailToken registeredUser.
Proof.
  assert (Hf : findUser (nextObjectId emptyWorld) (users emptyWorld) = None)
    by reflexivity.
  split; [exact Hf|].
  destruct (register_stores_what_it_mails exampleConfig exampleHash
              (mkRegisterReqBody "a@x.com" "secret") emptyWorld Hf)
    as (Hout & (u & Husers & _ & _ & _ & Hpw & Htok) & _).
  split; [exact Hout|].
  exists u. split; [exact Husers|]. split; [exact Hpw|exact Htok].
Defined.

(** X20 at a concrete input: the example session from the empty store. *)
Lemma user_ids_stay_unique_witness :
  uniqueIds emptyWorld /\
  uniqueIds (runCalls exampleConfig exampleHash exampleCalls emptyWorld).
Proof.
  assert (H : uniqueIds emptyWorld) by constructor.
  split; [exact H|].
  exact (user_ids_stay_unique exampleConfig exampleHash exampleCalls
           emptyWorld H).
Defined.

(** X22 at a concrete input. *)
Lemma refresh_records_match_their_tokens_witness :
  recordsMatch emptyWorld /\
  recordsMatch (runCalls exampleConfig exampleHash exampleCalls emptyWorld).
Proof.
  assert (H : recordsMatch emptyWorld) by constructor.
  split; [exact H|].
  exact (refresh_records_match_their_tokens exampleConfig exampleHash
           exampleCalls emptyWorld H).
Defined.

(** X24 at a concrete input: register on the empty store, then verify with
    the id string of the access token. *)
Lemma register_then_verifyEmail_by_claim_witness :
  findUser (nextObjectId emptyWorld) (users emptyWorld) = None /\
  (nextObjectId emptyWorld < 2 ^ 96)%N /\
  0 < JWT_REFRESH_TOKEN_EXPIRED_IN exampleConfig /\
  exists (s : Session) (userId : string),
    run (UserService.register exampleConfig exampleHash
           (mkRegisterReqBody "a@x.com" "secret")) emptyWorld = Ok s /\
    exists u' : User,
      findUser 7%N
        (users (exec (UserService.verifyEmail exampleConfig userId)
                  registeredWorld)) = Some u' /\
      verify u' = Verified.
Proof.
  assert (Hf : findUser (nextObjectId emptyWorld) (users emptyWorld) = None)
    by reflexivity.
  assert (Hs : (nextObjectId emptyWorld < 2 ^ 96)%N) by reflexivity.
  assert (Hr : 0 < JWT_REFRESH_TOKEN_EXPIRED_IN exampleConfig) by reflexivity.
  split; [exact Hf|]. split; [exact Hs|]. split; [exact Hr|].
  destruct (register_then_verifyEmail_by_claim exampleConfig exampleHash
              (mkRegisterReqBody "a@x.com" "secret") emptyWorld Hf Hs Hr)
    as (s & claims & userId & Hrun & _ & _ & _ & (u' & Hfind & _ & Hver & _)).
  exists s, userId. split; [exact Hrun|].
  exists u'. split; [exact Hfind|exact Hver].
Defined.

(** X25 at concrete inputs: no parameter at all, and a parameter made of
    a no-break space, a space and a tab. *)
Lemma blank_productCategoryId_is_required_witness :
  allSpace (param "productCategoryId" (req_params registerRequest)) = true /\
  allSpace
    (param "productCategoryId"
       (req_params
          (categoryRequest
             (nbsp ++ String " " (String (ascii_of_N 9) ""))%string)))
  = true /\
  productCategoryIdValidator registerRequest categoryWorld
  = (Err (ErrorWithStatus PRODUCT_CATEGORY_ID_IS_REQUIRED BadRequest),
     categoryWorld) /\
  productCategoryIdValidator
    (categoryRequest (nbsp ++ String " " (String (ascii_of_N 9) ""))%string)
    categoryWorld
  = (Err (ErrorWithStatus PRODUCT_CATEGORY_ID_IS_REQUIRED BadRequest),
     categoryWorld).
Proof.
  assert (H : allSpace (param "productCategoryId" (req_params registerRequest))
              = true) by reflexivity.
  assert (H' : allSpace
                 (param "productCategoryId"
                    (req_params
                       (categoryRequest
                          (nbsp ++ String " " (String (ascii_of_N 9) ""))%string)))
               = true) by reflexivity.
  split; [exact H|]. split; [exact H'|]. split.
  - exact (blank_productCategoryId_is_required registerRequest categoryWorld H).
  - exact (blank_productCategoryId_is_required _ categoryWorld H').
Defined.

(** ** Rotation: the expiry and the old record *)

(** C2 (amended).  For every rotation call [refreshToken(oldToken, claims,
    refreshTokenExp)] whose [refreshTokenExp] is not the number 0 and is
    still ahead of the clock, the call returns a pair whose refresh token
    verifies under the refresh secret with expiry claim equal to
    [refreshTokenExp], whatever the configured duration.  One record of
    [oldToken] is deleted, not every one: the store afterwards is the old
    store without its first record for [oldToken], followed by the record
    of the new token.  So when [oldToken] was recorded at most once and is
    not the very string the rotation issues, no record of it remains and a
    lookup of it finds nothing. *)
Theorem refreshToken_pins_expiry_and_deletes_one (cfg : Config) (old : Token)
    (userId : string) (v : UserVerifyStatus) (s : UserStatus) (r : UserRole)
    (refreshTokenExp : Z) (w : World) :
  refreshTokenExp <> 0 ->
  seconds (clock w) < refreshTokenExp ->
  exists p : TokenPair,
    run (UserService.refreshToken cfg old userId v s r refreshTokenExp) w
    = Ok p /\
    (exists claims : TokenPayload,
        jwt_verify (pair_refreshToken p) (JWT_REFRESH_TOKEN_SECRET cfg)
          (clock w) = Ok claims /\
        claim_exp claims = Some refreshTokenExp) /\
    refreshTokens
      (exec (UserService.refreshToken cfg old userId v s r refreshTokenExp) w)
    = deleteRefreshToken old (refreshTokens w)
      ++ [mkRefreshToken (pair_refreshToken p) (Some (seconds (clock w)))
            (Some refreshTokenExp)] /\
    ((countRefreshToken old (refreshTokens w) <= 1)%nat ->
     old <> pair_refreshToken p ->
     findRefreshToken old
       (refreshTokens
          (exec (UserService.refreshToken cfg old userId v s r
                   refreshTokenExp) w)) = None).
Proof.
  intros He Hlt.
  unfold run, exec. rewrite refreshToken_unfold by exact He.
  cbv zeta.
  assert (Hleb : (refreshTokenExp <=? seconds (clock w)) = false)
    by (apply Z.leb_gt; exact Hlt).
  rewrite Hleb. cbn [fst snd]. world_simpl.
  eexists (mkTokenPair _ _). split; [reflexivity|].
  cbn [pair_refreshToken]. split; [|split].
  - cbn [jwt_verify]. rewrite secret_matches.
    cbn [claim_exp]. rewrite Hleb. eexists. split; reflexivity.
  - reflexivity.
  - intros Hcount Hne.
    rewrite findRefreshToken_app_other
      by (cbn [token]; intros Heq; apply Hne; symmetry; exact Heq).
    apply findRefreshToken_count. rewrite countRefreshToken_delete. lia.
Qed.

(** C2 (amended) at a concrete input: the registered refresh token, whose
    expiry is 1 708 640 000, is rotated a minute after it was issued.  An
    expiry computed anew from the configured duration would be
    1 708 640 060. *)
Lemma refreshToken_pins_expiry_and_deletes_one_witness :
  1708640000 <> 0 /\
  seconds (clock minuteLaterWorld) < 1708640000 /\
  seconds (clock minuteLaterWorld) + JWT_REFRESH_TOKEN_EXPIRED_IN exampleConfig
  = 1708640060 /\
  exists p : TokenPair,
    run (UserService.refreshToken exampleConfig registeredRefreshToken hexId7
           Unverified Active Customer 1708640000) minuteLaterWorld = Ok p /\
    (exists claims : TokenPayload,
        jwt_verify (pair_refreshToken p) "refresh-secret"
          (clock minuteLaterWorld) = Ok claims /\
        claim_exp claims = Some 1708640000) /\
    findRefreshToken registeredRefreshToken
      (refreshTokens
         (exec (UserService.refreshToken exampleConfig registeredRefreshToken
                  hexId7 Unverified Active Customer 1708640000)
            minuteLaterWorld)) = None.
Proof.
  assert (H0 : 1708640000 <> 0) by discriminate.
  assert (H1 : seconds (clock minuteLaterWorld) < 1708640000) by reflexivity.
  split; [exact H0|]. split; [exact H1|]. split; [reflexivity|].
  destruct (refreshToken_pins_expiry_and_deletes_one exampleConfig
              registeredRefreshToken hexId7 Unverified Active Customer
              1708640000 minuteLaterWorld H0 H1)
    as (p & Hrun & Hexp & Hstore & Hgone).
  exists p. split; [exact Hrun|]. split; [exact Hexp|].
  apply Hgone.
  - vm_compute; constructor.
  - vm_compute in Hrun. injection Hrun as <-. discriminate.
Defined.

(** C2, the claim as stated fails, in two ways.  After a registration and
    a login within one second the store holds two records of the same
    refresh token string; a rotation of it succeeds with the expiry
    pinned, and a record for the old token is still in the store.  And a
    rotation given the expiry 0 issues a token whose expiry is not 0 but
    the clock plus the configured duration. *)
Lemma refreshToken_old_record_counterexample :
  let call :=
    UserService.refreshToken exampleConfig registeredRefreshToken hexId7
      Unverified Active Customer 1708640000 in
  countRefreshToken registeredRefreshToken (refreshTokens reloggedWorld)
  = 2%nat /\
  (exists (p : TokenPair) (claims : TokenPayload),
      run call reloggedWorld = Ok p /\
      jwt_verify (pair_refreshToken p) "refresh-secret" (clock reloggedWorld)
      = Ok claims /\
      claim_exp claims = Some 1708640000) /\
  findRefreshToken registeredRefreshToken
    (refreshTokens (exec call reloggedWorld)) <> None /\
  (exists (p0 : TokenPair) (claims0 : TokenPayload),
      run (UserService.refreshToken exampleConfig registeredRefreshToken
             hexId7 Unverified Active Customer 0) registeredWorld = Ok p0 /\
      jwt_verify (pair_refreshToken p0) "refresh-secret"
        (clock registeredWorld) = Ok claims0 /\
      claim_exp claims0 = Some 1708640000 /\
      claim_exp claims0 <> Some 0).
Proof.
  cbv zeta. split; [reflexivity|]. split; [|split].
  - eexists. eexists. split; [vm_compute; reflexivity|].
    split; reflexivity.
  - vm_compute. discriminate.
  - eexists. eexists. split; [vm_compute; reflexivity|].
    split; [reflexivity|]. split; [reflexivity|]. discriminate.
Qed.

(** ** Absent users *)

(** C7, the claim as stated fails: on a store without user 7 the three
    operations fail with [TypeError]; none of them fails with an
    [ErrorWithStatus], the only error of the repository that carries a
    not-found (or any other) status. *)
Lemma absent_user_counterexample :
  run (UserService.resendEmailVerify exampleConfig hexId7) emptyWorld
  = Err TypeError /\
  run (UserService.verifyEmail exampleConfig hexId7) emptyWorld
  = Err TypeError /\
  run (UserService.resetPassword exampleConfig exampleHash "new-secret" hexId7)
    emptyWorld = Err TypeError /\
  forall (m : Message) (st : HttpStatusCode),
    run (UserService.resendEmailVerify exampleConfig hexId7) emptyWorld
    <> Err (ErrorWithStatus m st) /\
    run (UserService.verifyEmail exampleConfig hexId7) emptyWorld
    <> Err (ErrorWithStatus m st) /\
    run (UserService.resetPassword exampleConfig exampleHash "new-secret"
           hexId7) emptyWorld
    <> Err (ErrorWithStatus m st).
Proof.
  split; [reflexivity|]. split; [reflexivity|]. split; [reflexivity|].
  intros m st. repeat split; discriminate.
Qed.

(** ** The generated id *)

(** X23.  [register] fails with the duplicate-key error exactly when the
    generated id is already the [_id] of a stored user.  In that case the
    verification mail has been handed over all the same (the mail call
    and the insert are the two elements of one [Promise.all]), and nothing
    is added to the users or to the refresh records. *)
Theorem register_duplicate_key (cfg : Config) (hash : string -> string)
    (data : RegisterReqBody) (w : World) :
  (run (UserService.register cfg hash data) w = Err MongoServerError <->
   findUser (nextObjectId w) (users w) <> None) /\
  (findUser (nextObjectId w) (users w) <> None ->
   users (exec (UserService.register cfg hash data) w) = users w /\
   refreshTokens (exec (UserService.register cfg hash data) w)
   = refreshTokens w /\
   outbox (exec (UserService.register cfg hash data) w)
   = outbox w
     ++ [VerifyEmailMail (body_email data)
           (issuedVerifyEmailToken cfg (ObjectId_toString (nextObjectId w))
              w)]).
Proof.
  destruct (findUser (nextObjectId w) (users w)) as [u0|] eqn:Hid.
  - destruct (register_duplicate cfg hash data w u0 Hid) as (Hrun & _ & _).
    split.
    + split; [discriminate|intros _; exact Hrun].
    + intros _. rewrite (register_duplicate_world cfg hash data w u0 Hid).
      repeat split; reflexivity.
  - split.
    + split; [|intros H; now destruct H].
      unfold run. rewrite (register_fresh cfg hash data w Hid). cbv zeta.
      destruct (seconds (clock w) + JWT_REFRESH_TOKEN_EXPIRED_IN cfg
                <=? seconds (clock w)); discriminate.
    + intros H. now destruct H.
Qed.

(** X23 at a concrete input: the generator returns the id of the
    registered user. *)
Lemma register_duplicate_key_witness :
  findUser (nextObjectId takenIdWorld) (users takenIdWorld) <> None /\
  run (UserService.register exampleConfig exampleHash
         (mkRegisterReqBody "b@x.com" "other")) takenIdWorld
  = Err MongoServerError /\
  users (exec (UserService.register exampleConfig exampleHash
                 (mkRegisterReqBody "b@x.com" "other")) takenIdWorld)
  = users takenIdWorld /\
  List.length
    (outbox (exec (UserService.register exampleConfig exampleHash
                     (mkRegisterReqBody "b@x.com" "other")) takenIdWorld))
  = 2%nat.
Proof.
  assert (H : findUser (nextObjectId takenIdWorld) (users takenIdWorld)
              <> None) by discriminate.
  split; [exact H|].
  destruct (register_duplicate_key exampleConfig exampleHash
              (mkRegisterReqBody "b@x.com" "other") takenIdWorld)
    as (Hiff & Hworld).
  split; [exact (proj2 Hiff H)|].
  destruct (Hworld H) as (Hu & _ & Ho).
  split; [exact Hu|]. rewrite Ho. reflexivity.
Defined.
